(** * Print Preview Studio: sheet layout and 3D stack synthesis

    A shallow embedding of the two scene-building variants of the
    application ([src/App.vue], the cascade stack capped at 24 sheets, and the
    orientation-aware grid variant capped at 100 sheets) together with the
    file-intake routine [loadFile].

    Conventions of the embedding.
    - The reactive refs of the component are one record, [Refs]; a [computed]
      is a function of that record.
    - [pages] and [copies] hold integers ([Z]).  Intermediate JavaScript
      numbers that may be [NaN] are of type [JS.number]; quotients such as
      [pages / 2] and all lengths and coordinates are exact rationals ([Q]),
      which agrees with IEEE doubles on the integer ranges the application
      uses (rounding of coordinates is not modelled).
    - Angles are kept as rational multiples of pi: [PI] is [1], a quarter
      turn is [1/2], and [degToRad d] is [d / 180].
    - three.js objects are records; every texture, material and geometry
      carries the unique id it received when it was constructed, and the
      world records every [dispose()] call in a log. *)

From Stdlib Require Import ZArith QArith Qround List String Bool Lia Lqa Permutation.
Import ListNotations.

Local Open Scope Z_scope.

(** ** JavaScript numbers and arrays *)

Module JS.

(** A number that is either an integer or [NaN]. *)
Inductive number : Type :=
| Int (z : Z)
| NaN.

(** [a % b] on integers: the sign follows the dividend, [NaN] when the
    divisor is zero. *)
Definition rem (a b : Z) : number :=
  if b =? 0 then NaN else Int (Z.rem a b).

Definition mul (n : number) (k : Z) : number :=
  match n with Int z => Int (z * k) | NaN => NaN end.

Definition add (n : number) (k : Z) : number :=
  match n with Int z => Int (z + k) | NaN => NaN end.

(** [n < k]; every comparison with [NaN] is false. *)
Definition lt (n : number) (k : Z) : bool :=
  match n with Int z => z <? k | NaN => false end.

(** [Math.ceil] and [Math.floor] of an exact quotient. *)
Definition ceil (q : Q) : Z := Qceiling q.
Definition floor (q : Q) : Z := Qfloor q.

(** [Math.max] and [Math.min] on rationals. *)
Definition max (a b : Q) : Q := if Qle_bool a b then b else a.
Definition min (a b : Q) : Q := if Qle_bool a b then a else b.

(** [arr[n]]: [undefined] (here [None]) outside [0 .. length-1] and at
    [NaN]. *)
Definition index {A : Type} (arr : list A) (n : number) : option A :=
  match n with
  | Int z => if z <? 0 then None else nth_error arr (Z.to_nat z)
  | NaN => None
  end.

(** Truthiness of a [string | null]: [null] and the empty string are
    falsy. *)
Definition truthy (s : option string) : bool :=
  match s with
  | Some u => negb (String.eqb u EmptyString)
  | None => false
  end.

(** [String(n)] for a non-negative integer: its decimal digits. *)
Definition digit (d : nat) : string :=
  match d with
  | 0%nat => "0" | 1%nat => "1" | 2%nat => "2" | 3%nat => "3" | 4%nat => "4"
  | 5%nat => "5" | 6%nat => "6" | 7%nat => "7" | 8%nat => "8" | _ => "9"
  end%string.

Fixpoint digits (fuel n : nat) (acc : string) : string :=
  match fuel with
  | O => acc
  | S fuel' =>
      let acc' := String.append (digit (Nat.modulo n 10)) acc in
      if (Nat.ltb n 10) then acc' else digits fuel' (Nat.div n 10) acc'
  end.

Definition String (z : Z) : string :=
  let n := Z.to_nat z in digits (S n) n EmptyString.

End JS.

(** ** Reactive state of the component *)

Inductive DuplexMode : Type := Simplex | Duplex.
Inductive FlipMode : Type := Long | Short.
Inductive OrientationMode : Type := Portrait | Landscape.

Record PageRender : Type := mkPageRender {
  url : string;
  width : Q;
  height : Q
}.

(** The part of a browser [File] that [loadFile] looks at. *)
Record File : Type := mkFile {
  name : string;
  type : string
}.

(** The refs declared at the top of the script.  [orientation] exists in the
    grid variant only; the cascade variant never reads it.  [isDragging] and
    [previewRef] concern the page chrome and are left out. *)
Record Refs : Type := mkRefs {
  file : option File;
  isLoading : bool;
  loadError : option string;
  maxPageCount : option Z;
  pageRenders : list PageRender;
  pages : Z;
  copies : Z;
  duplex : DuplexMode;
  flip : FlipMode;
  orientation : OrientationMode
}.

Definition DuplexMode_eqb (a b : DuplexMode) : bool :=
  match a, b with
  | Simplex, Simplex | Duplex, Duplex => true
  | _, _ => false
  end.

Definition FlipMode_eqb (a b : FlipMode) : bool :=
  match a, b with
  | Long, Long | Short, Short => true
  | _, _ => false
  end.

Definition OrientationMode_eqb (a b : OrientationMode) : bool :=
  match a, b with
  | Portrait, Portrait | Landscape, Landscape => true
  | _, _ => false
  end.

(** ** Print layout calculator: the [computed] values *)

Section Layout.

(** The render cap: 24 in the cascade variant, 100 in the grid variant. *)
Variable maxRenderedSheets : Z.

Definition isDuplex (r : Refs) : bool := DuplexMode_eqb (duplex r) Duplex.

Definition isLandscape (r : Refs) : bool :=
  OrientationMode_eqb (orientation r) Landscape.

Definition sheetsPerCopy (r : Refs) : Z :=
  if isDuplex r then JS.ceil (inject_Z (pages r) / 2) else pages r.

Definition totalSheets (r : Refs) : Z := sheetsPerCopy r * copies r.

Definition totalSides (r : Refs) : Z := pages r * copies r.

Definition renderedSheets (r : Refs) : Z :=
  Z.min (totalSheets r) maxRenderedSheets.

Definition hiddenSheets (r : Refs) : Z :=
  Z.max (totalSheets r - renderedSheets r) 0.

Definition hasRenderedPages (r : Refs) : bool :=
  negb (Nat.eqb (List.length (pageRenders r)) 0).

End Layout.

(** ** The per-sheet page mapping (first lines of the loop body of
       [buildStack], identical in both variants) *)

Definition pageCount (r : Refs) : Z := Z.max (pages r) 1.

Definition sheetIndex (r : Refs) (i : Z) : JS.number :=
  JS.rem i (sheetsPerCopy r).

Definition frontPage (r : Refs) (i : Z) : JS.number :=
  if isDuplex r then JS.mul (sheetIndex r i) 2 else sheetIndex r i.

(** [None] is [null]. *)
Definition backPage (r : Refs) (i : Z) : option JS.number :=
  if isDuplex r then Some (JS.add (JS.mul (sheetIndex r i) 2) 1) else None.

Definition frontIndex (r : Refs) (i : Z) : option JS.number :=
  if JS.lt (frontPage r i) (pageCount r) then Some (frontPage r i) else None.

Definition backIndex (r : Refs) (i : Z) : option JS.number :=
  match backPage r i with
  | Some b => if JS.lt b (pageCount r) then Some b else None
  | None => None
  end.

(** [idx !== null ? pageRenders.value[idx]?.url ?? null : null] *)
Definition urlAt (r : Refs) (idx : option JS.number) : option string :=
  match idx with
  | Some n => option_map url (JS.index (pageRenders r) n)
  | None => None
  end.

Definition frontUrl (r : Refs) (i : Z) : option string := urlAt r (frontIndex r i).
Definition backUrl (r : Refs) (i : Z) : option string := urlAt r (backIndex r i).

(** ** three.js objects and the mutable world *)

Definition PI : Q := 1.

(** [THREE.MathUtils.degToRad], in units of pi. *)
Definition degToRad (d : Q) : Q := (d * PI / 180)%Q.

Inductive Kind : Type := KTexture | KMaterial | KGeometry.

(** A disposable GPU resource: its kind and the id given at construction. *)
Definition Resource : Type := (Kind * nat)%type.

Definition uid_of (x : Resource) : nat := snd x.

Inductive TextureSource : Type :=
| FromUrl (u : string)        (* [new THREE.TextureLoader().load(u)] *)
| FromCanvas (text : string). (* [new THREE.CanvasTexture(canvas)] *)

Record Texture : Type := mkTexture {
  tex_uid : nat;
  tex_source : TextureSource;
  tex_rotation : Q
}.

(** A [MeshStandardMaterial]; [side] is always [DoubleSide]. *)
Record Material : Type := mkMaterial {
  mat_uid : nat;
  color : Z;
  roughness : Q;
  metalness : Q;
  map : option Texture;
  polygonOffset : bool
}.

Record Geometry : Type := mkGeometry {
  geo_uid : nat;
  geo_width : Q;
  geo_height : Q
}.

Record Mesh : Type := mkMesh {
  geometry : Geometry;
  material : Material;
  mesh_rotation_y : Q;
  mesh_position_z : Q
}.

(** A label: a [Sprite] over a [SpriteMaterial] over a canvas texture. *)
Record Sprite : Type := mkSprite {
  sprite_mat_uid : nat;
  sprite_map : Texture;
  sprite_position : Q * Q * Q;
  sprite_scale : Q * Q * Q;
  renderOrder : Z
}.

(** One sheet: the [THREE.Group] holding the front mesh, the back mesh and,
    in the grid variant, the label. *)
Record SheetGroup : Type := mkSheetGroup {
  frontMesh : Mesh;
  backMesh : Mesh;
  label : option Sprite;
  position : Q * Q * Q;
  rotation_x : Q
}.

(** The module-level mutable state touched by [buildStack] and
    [disposeStack].  [scene] and [stackGroup] are assigned together by
    [initScene], so one option stands for both: [None] is [null], [Some ch]
    is a group with children [ch].  [disposed] is the log of [dispose()]
    calls, [next_uid] counts the resources constructed so far. *)
Record World : Type := mkWorld {
  stackGroup : option (list SheetGroup);
  disposable : list Resource;
  disposed : list Resource;
  next_uid : nat
}.

(** *** A small state monad over the world *)

Definition M (A : Type) : Type := World -> A * World.

Definition ret {A : Type} (a : A) : M A := fun w => (a, w).

Definition bind {A B : Type} (m : M A) (k : A -> M B) : M B :=
  fun w => let (a, w') := m w in k a w'.

Declare Scope world_scope.
Delimit Scope world_scope with world.
Notation "x <- m ;; k" := (bind m (fun x => k))
  (at level 61, m at next level, right associativity) : world_scope.
Notation "m ;; k" := (bind m (fun _ => k))
  (at level 61, right associativity) : world_scope.
Local Open Scope world_scope.

Definition exec {A : Type} (m : M A) (w : World) : World := snd (m w).
Definition eval {A : Type} (m : M A) (w : World) : A := fst (m w).

(** [new THREE.X(...)] for a disposable kind: hands out the next id. *)
Definition construct : M nat :=
  fun w => (next_uid w,
            mkWorld (stackGroup w) (disposable w) (disposed w) (S (next_uid w))).

(** [disposable.push(item)] *)
Definition push (x : Resource) : M unit :=
  fun w => (tt, mkWorld (stackGroup w) (disposable w ++ [x]) (disposed w) (next_uid w)).

(** [stackGroup.add(sheetGroup)]; only reached when [stackGroup] is set. *)
Definition addToStack (g : SheetGroup) : M unit :=
  fun w => (tt, mkWorld (option_map (fun ch => ch ++ [g]) (stackGroup w))
                        (disposable w) (disposed w) (next_uid w)).

(** [for (let i = 0; i < n; i += 1) body(i)] *)
Fixpoint forRange (count : nat) (start : Z) (body : Z -> M unit) : M unit :=
  match count with
  | O => ret tt
  | S count' => body start ;; forRange count' (start + 1) body
  end.

Definition forLoop (n : Z) (body : Z -> M unit) : M unit :=
  forRange (Z.to_nat n) 0 body.

(** The [while (children.length > 0) children.pop()] loop of [disposeStack];
    the fuel is the number of children at entry. *)
Fixpoint popAll (fuel : nat) (children : list SheetGroup) : list SheetGroup :=
  match fuel with
  | O => children
  | S fuel' =>
      match children with
      | [] => children
      | _ :: _ => popAll fuel' (removelast children)
      end
  end.

Definition disposeStack : M unit :=
  fun w =>
    (* disposable.forEach(item => item.dispose()); disposable.length = 0 *)
    let log := disposed w ++ disposable w in
    match stackGroup w with
    | None => (tt, mkWorld None [] log (next_uid w))
    | Some ch => (tt, mkWorld (Some (popAll (List.length ch) ch)) [] log (next_uid w))
    end.

Definition createTexture (u : string) (rotation : Q) : M Texture :=
  id <- construct ;;
  push (KTexture, id) ;;
  ret (mkTexture id (FromUrl u) rotation).

Section PageMaterial.

(** The constants of the material literal differ between the variants. *)
Variables (rough metal : Q) (offset : bool).

Definition createPageMaterial (u : option string) (rotation : Q) : M Material :=
  (* the [map:] field is evaluated before the material is constructed *)
  m <- match u with
       | Some s =>
           if JS.truthy u
           then (t <- createTexture s rotation ;; ret (Some t))
           else ret None
       | None => ret None
       end ;;
  id <- construct ;;
  push (KMaterial, id) ;;
  ret (mkMaterial id (if JS.truthy u then 16777215 else 15857145)
                  rough metal m offset).

End PageMaterial.

Definition newPlaneGeometry (w h : Q) : M Geometry :=
  id <- construct ;;
  ret (mkGeometry id w h).

Definition defaultPage : PageRender := mkPageRender "" 1 1.414.

(** [pageDimensions[0]] *)
Definition base (r : Refs) : PageRender :=
  match pageRenders r with
  | [] => defaultPage
  | p :: _ => p
  end.

Definition planeHeight : Q := 2.6.

(** ** Variant 1 ([src/App.vue]): the cascade stack *)

Module Cascade.

Definition maxRenderedSheets : Z := 24.

Definition sheetDepth : Q := 0.03.

Definition planeWidth (r : Refs) : Q :=
  (planeHeight * (width (base r) / height (base r)))%Q.

Definition renderCount (r : Refs) : Z :=
  Z.min (totalSheets r) maxRenderedSheets.

Definition backRotation (r : Refs) : Q :=
  if FlipMode_eqb (flip r) Short then PI else 0%Q.

Definition buildSheet (r : Refs) (i : Z) : M SheetGroup :=
  g <- newPlaneGeometry (planeWidth r) planeHeight ;;
  push (KGeometry, geo_uid g) ;;
  frontMaterial <- createPageMaterial 0.85 0.05 false (frontUrl r i) 0 ;;
  backMaterial <- createPageMaterial 0.85 0.05 false (backUrl r i) (backRotation r) ;;
  let front := mkMesh g frontMaterial 0 (inject_Z i * sheetDepth) in
  let back := mkMesh g backMaterial PI (inject_Z i * sheetDepth - 0.001) in
  ret (mkSheetGroup front back None
         (0, - inject_Z i * 0.015, 0)%Q
         (degToRad (6 + inject_Z i * 0.2))).

Definition buildStack (r : Refs) : M unit :=
  fun w =>
    match stackGroup w with
    | None => (tt, w)
    | Some _ =>
        (disposeStack ;;
         forLoop (renderCount r)
           (fun i => g <- buildSheet r i ;; addToStack g)) w
    end.

(** [onMounted]: [initScene] creates the stack group unless the preview
    element is missing, then the first [buildStack] runs. *)
Definition initScene (previewRef : bool) : M unit :=
  fun w =>
    if previewRef
    then (tt, mkWorld (Some []) (disposable w) (disposed w) (next_uid w))
    else (tt, w).

Definition onMounted (previewRef : bool) (r : Refs) : M unit :=
  initScene previewRef ;; buildStack r.

(** [onBeforeUnmount], as far as the stack is concerned (the renderer and
    the controls own no resource of the placement list). *)
Definition onBeforeUnmount : M unit := disposeStack.

End Cascade.

(** ** Variant 2: the orientation-aware grid, with labels *)

Module Grid.

Definition maxRenderedSheets : Z := 100.

Definition aspect (r : Refs) : Q := (width (base r) / height (base r))%Q.

Definition isSourceLandscape (r : Refs) : bool := Qle_bool 1 (aspect r).

Definition targetAspect (r : Refs) : Q :=
  if isLandscape r
  then JS.max (aspect r) (1 / aspect r)
  else JS.min (aspect r) (1 / aspect r).

Definition planeWidth (r : Refs) : Q := (planeHeight * targetAspect r)%Q.

Definition renderCount (r : Refs) : Z :=
  Z.min (totalSheets r) maxRenderedSheets.

Definition spacingX (r : Refs) : Q := (planeWidth r * 1.25)%Q.
Definition spacingZ : Q := (planeHeight * 1.5)%Q.

Definition columns (r : Refs) : Z := Z.min 10 (Z.max 1 (renderCount r)).

Definition rows (r : Refs) : Z :=
  JS.ceil (inject_Z (renderCount r) / inject_Z (columns r)).

Definition totalWidth (r : Refs) : Q := (inject_Z (columns r - 1) * spacingX r)%Q.
Definition totalDepth (r : Refs) : Q := (inject_Z (rows r - 1) * spacingZ)%Q.

Definition effectiveFlip (r : Refs) : FlipMode :=
  if isLandscape r
  then (if FlipMode_eqb (flip r) Long then Short else Long)
  else flip r.

Definition orientationRotation (r : Refs) : Q :=
  if Bool.eqb (isLandscape r) (isSourceLandscape r) then 0%Q else (PI / 2)%Q.

Definition backRotation (r : Refs) : Q :=
  ((if FlipMode_eqb (effectiveFlip r) Short then PI else 0) + orientationRotation r)%Q.

(** [i % columns]; [columns] is at least 1, so this is never [NaN]. *)
Definition col (r : Refs) (i : Z) : Z := Z.rem i (columns r).

Definition row (r : Refs) (i : Z) : Z :=
  JS.floor (inject_Z i / inject_Z (columns r)).

Definition x (r : Refs) (i : Z) : Q :=
  (inject_Z (col r i) * spacingX r - totalWidth r / 2)%Q.

Definition z (r : Refs) (i : Z) : Q :=
  (totalDepth r / 2 - inject_Z (row r i) * spacingZ)%Q.

Section Canvas.

(** Whether [canvas.getContext("2d")] hands out a context. *)
Variable ctx2d : bool.

Definition createLabelSprite (text : string) : M (option Sprite) :=
  if negb ctx2d then ret None          (* if (!context) return null *)
  else if negb ctx2d then ret None     (* if (!ctx) return null *)
  else
    tid <- construct ;;
    push (KTexture, tid) ;;
    mid <- construct ;;
    push (KMaterial, mid) ;;
    ret (Some (mkSprite mid (mkTexture tid (FromCanvas text) 0)
                        (0, 0, 0)%Q (1, 1, 1)%Q 0)).

Definition placeLabel (s : Sprite) : Sprite :=
  mkSprite (sprite_mat_uid s) (sprite_map s)
           (0, - planeHeight * 0.62, 0.05)%Q (0.9, 0.35, 1)%Q 5.

Definition buildSheet (r : Refs) (i : Z) : M SheetGroup :=
  g <- newPlaneGeometry (planeWidth r) planeHeight ;;
  push (KGeometry, geo_uid g) ;;
  frontMaterial <- createPageMaterial 0.6 0.02 true (frontUrl r i) (orientationRotation r) ;;
  backMaterial <- createPageMaterial 0.6 0.02 true (backUrl r i) (backRotation r) ;;
  let front := mkMesh g frontMaterial 0 0.01 in
  let back := mkMesh g backMaterial PI (-0.01) in
  l <- createLabelSprite (JS.String (i + 1)) ;;
  ret (mkSheetGroup front back (option_map placeLabel l)
         (x r i, 0%Q, z r i)
         (degToRad (-18))).

Definition buildStack (r : Refs) : M unit :=
  fun w =>
    match stackGroup w with
    | None => (tt, w)
    | Some _ =>
        (disposeStack ;;
         forLoop (renderCount r)
           (fun i => g <- buildSheet r i ;; addToStack g)) w
    end.

End Canvas.

Definition initScene (previewRef : bool) : M unit :=
  fun w =>
    if previewRef
    then (tt, mkWorld (Some []) (disposable w) (disposed w) (next_uid w))
    else (tt, w).

Definition onBeforeUnmount : M unit := disposeStack.

End Grid.

(** The world when the component is created: nothing built, nothing
    allocated. *)
Definition emptyWorld : World := mkWorld None [] [] 0.

(** ** File intake ([loadFile], identical in both variants) *)

(** The result of awaiting a promise: a value, or a thrown error.  The
    error carries its message when it is an [Error] instance. *)
Inductive Outcome (A : Type) : Type :=
| Resolved (a : A)
| Thrown (message : option string).
Arguments Resolved {A} a.
Arguments Thrown {A} message.

Definition set_file (v : option File) (r : Refs) : Refs :=
  mkRefs v (isLoading r) (loadError r) (maxPageCount r) (pageRenders r)
         (pages r) (copies r) (duplex r) (flip r) (orientation r).
Definition set_isLoading (v : bool) (r : Refs) : Refs :=
  mkRefs (file r) v (loadError r) (maxPageCount r) (pageRenders r)
         (pages r) (copies r) (duplex r) (flip r) (orientation r).
Definition set_loadError (v : option string) (r : Refs) : Refs :=
  mkRefs (file r) (isLoading r) v (maxPageCount r) (pageRenders r)
         (pages r) (copies r) (duplex r) (flip r) (orientation r).
Definition set_maxPageCount (v : option Z) (r : Refs) : Refs :=
  mkRefs (file r) (isLoading r) (loadError r) v (pageRenders r)
         (pages r) (copies r) (duplex r) (flip r) (orientation r).
Definition set_pageRenders (v : list PageRender) (r : Refs) : Refs :=
  mkRefs (file r) (isLoading r) (loadError r) (maxPageCount r) v
         (pages r) (copies r) (duplex r) (flip r) (orientation r).
Definition set_pages (v : Z) (r : Refs) : Refs :=
  mkRefs (file r) (isLoading r) (loadError r) (maxPageCount r) (pageRenders r)
         v (copies r) (duplex r) (flip r) (orientation r).
Definition set_copies (v : Z) (r : Refs) : Refs :=
  mkRefs (file r) (isLoading r) (loadError r) (maxPageCount r) (pageRenders r)
         (pages r) v (duplex r) (flip r) (orientation r).
Definition set_flip (v : FlipMode) (r : Refs) : Refs :=
  mkRefs (file r) (isLoading r) (loadError r) (maxPageCount r) (pageRenders r)
         (pages r) (copies r) (duplex r) v (orientation r).

Section FileIntake.

(** The decoders are external: pdf.js reports the number of pages of a
    document and rasterises the first [count] of them; the browser decodes
    an image into one page. *)
Variable pdfNumPages : File -> Outcome Z.
Variable pdfRenderPages : File -> Z -> Outcome (list PageRender).
Variable decodeImage : File -> Outcome PageRender.

Definition loadPdf (selected : File) (r : Refs) : Refs * Outcome unit :=
  match pdfNumPages selected with
  | Thrown e => (r, Thrown e)
  | Resolved numPages =>
      let count := Z.min numPages 60 in
      let r1 := set_pages count (set_maxPageCount (Some numPages) r) in
      match pdfRenderPages selected count with
      | Thrown e => (r1, Thrown e)
      | Resolved renders => (set_pageRenders renders r1, Resolved tt)
      end
  end.

Definition loadImage (selected : File) (r : Refs) : Refs * Outcome unit :=
  match decodeImage selected with
  | Thrown e => (r, Thrown e)
  | Resolved p =>
      (set_pages 1 (set_maxPageCount (Some 1) (set_pageRenders [p] r)), Resolved tt)
  end.

Definition loadFile (selected : File) (r : Refs) : Refs :=
  let r0 :=
    set_pageRenders [] (set_loadError None (set_isLoading true (set_file (Some selected) r))) in
  let '(r1, outcome) :=
    if String.eqb (type selected) "application/pdf" then loadPdf selected r0
    else if String.prefix "image/" (type selected) then loadImage selected r0
    else (r0, Thrown (Some "Unsupported file format."%string)) in
  let r2 :=
    match outcome with
    | Resolved _ => r1
    | Thrown (Some message) => set_loadError (Some message) r1
    | Thrown None => set_loadError (Some "Failed to read file."%string) r1
    end in
  set_isLoading false r2.

End FileIntake.

(** ** Observations used in the statements *)

(** The children of the stack group ([[]] while it is [null]). *)
Definition children (w : World) : list SheetGroup :=
  match stackGroup w with
  | Some ch => ch
  | None => []
  end.

(** What a face shows: the source and rotation of the texture mapped on its
    material, [None] for a blank face. *)
Definition shown (m : Material) : option (TextureSource * Q) :=
  option_map (fun t => (tex_source t, tex_rotation t)) (map m).

Definition frontFace (g : SheetGroup) : option (TextureSource * Q) :=
  shown (material (frontMesh g)).

Definition backFace (g : SheetGroup) : option (TextureSource * Q) :=
  shown (material (backMesh g)).

(** The face [createPageMaterial u rotation] is expected to show. *)
Definition faceOf (u : option string) (rotation : Q) : option (TextureSource * Q) :=
  match u with
  | Some s => if JS.truthy u then Some (FromUrl s, rotation) else None
  | None => None
  end.

(** The text drawn on the label of a sheet, if it has a label. *)
Definition labelText (g : SheetGroup) : option string :=
  match label g with
  | Some s =>
      match tex_source (sprite_map s) with
      | FromCanvas t => Some t
      | FromUrl _ => None
      end
  | None => None
  end.

(** Settings with [pages] and [copies] clamped to at least 1. *)
Definition clamped (r : Refs) : Refs :=
  set_copies (Z.max (copies r) 1) (set_pages (Z.max (pages r) 1) r).

(** Number of times the resource with id [id] was disposed. *)
Definition releases (w : World) (id : nat) : nat :=
  count_occ Nat.eq_dec (List.map uid_of (disposed w)) id.

(** Number of resources constructed so far and never disposed. *)
Definition unreleased (w : World) : nat :=
  List.length (filter (fun id => Nat.eqb (releases w id) 0) (seq 0 (next_uid w))).

(** The ledger invariant of the world: the ids disposed so far together with
    the ids waiting in [disposable] are exactly the ids handed out, each
    once; and nothing waits in [disposable] while there is no stack group. *)
Definition ledger (w : World) : Prop :=
  Permutation (List.map uid_of (disposed w ++ disposable w)) (seq 0 (next_uid w))
  /\ (stackGroup w = None -> disposable w = []).

(** A computation that only allocates: it leaves the stack group and the
    dispose log alone and pushes exactly the resources it constructs. *)
Definition allocating {A : Type} (m : M A) : Prop :=
  forall w, exists fresh,
    exec m w = mkWorld (stackGroup w) (disposable w ++ fresh) (disposed w)
                       (next_uid w + List.length fresh)
    /\ List.map uid_of fresh = seq (next_uid w) (List.length fresh).

(** The shape shared by both [buildStack] functions. *)
Definition rebuild (n : Z) (mk : Z -> M SheetGroup) : M unit :=
  fun w =>
    match stackGroup w with
    | None => (tt, w)
    | Some _ =>
        (disposeStack ;; forLoop n (fun i => g <- mk i ;; addToStack g)) w
    end.

(** A session of the cascade variant: mount, rebuild once per entry of
    [inputs] (the settings in force at that rebuild), in order. *)
Definition cascadeSession (previewRef : bool) (inputs : list Refs) : World :=
  fold_left (fun w r => exec (Cascade.buildStack r) w) inputs
            (exec (Cascade.initScene previewRef) emptyWorld).

(** The same for the grid variant; each rebuild comes with the answer of
    the canvas to [getContext]. *)
Definition gridSession (previewRef : bool) (inputs : list (bool * Refs)) : World :=
  fold_left (fun w cr => exec (Grid.buildStack (fst cr) (snd cr)) w) inputs
            (exec (Grid.initScene previewRef) emptyWorld).

(** ** Further parts of the component *)

(** [clearFile]: forget the file and its page images; the print settings
    stay. *)
Definition clearFile (r : Refs) : Refs :=
  set_maxPageCount None (set_pageRenders [] (set_file None r)).

(** [handleFileChange] and the file part of [handleDrop]: load the first file
    of the list, if there is one. *)
Definition handleFiles
           (pdfNumPages : File -> Outcome Z)
           (pdfRenderPages : File -> Z -> Outcome (list PageRender))
           (decodeImage : File -> Outcome PageRender)
           (files : list File) (r : Refs) : Refs :=
  match files with
  | selected :: _ => loadFile pdfNumPages pdfRenderPages decodeImage selected r
  | [] => r
  end.

(** The disposable resources an object holds, in the order in which
    [buildStack] pushes them. *)
Definition textureResources (t : option Texture) : list Resource :=
  match t with
  | Some t => [(KTexture, tex_uid t)]
  | None => []
  end.

Definition materialResources (m : Material) : list Resource :=
  textureResources (map m) ++ [(KMaterial, mat_uid m)].

Definition labelResources (l : option Sprite) : list Resource :=
  match l with
  | Some s => [(KTexture, tex_uid (sprite_map s)); (KMaterial, sprite_mat_uid s)]
  | None => []
  end.

Definition sheetResources (g : SheetGroup) : list Resource :=
  (KGeometry, geo_uid (geometry (frontMesh g)))
    :: materialResources (material (frontMesh g))
    ++ materialResources (material (backMesh g))
    ++ labelResources (label g).

(** The world keeps track of its sheets: [disposable] lists exactly the
    resources of the sheets in the stack group, sheet by sheet. *)
Definition tracked (w : World) : Prop :=
  disposable w = flat_map sheetResources (children w).

(** A sheet builder that pushes exactly the resources of the sheet it
    returns and touches nothing else. *)
Definition tracking (mk : Z -> M SheetGroup) : Prop :=
  forall i w,
    exec (mk i) w
    = mkWorld (stackGroup w)
              (disposable w ++ sheetResources (eval (mk i) w))
              (disposed w)
              (next_uid w + List.length (sheetResources (eval (mk i) w))).

(** A sheet with the identities of its resources blanked out: what is left
    is everything the renderer draws. *)
Definition eraseTexture (t : Texture) : Texture :=
  mkTexture 0 (tex_source t) (tex_rotation t).

Definition eraseMaterial (m : Material) : Material :=
  mkMaterial 0 (color m) (roughness m) (metalness m)
             (option_map eraseTexture (map m)) (polygonOffset m).

Definition eraseMesh (m : Mesh) : Mesh :=
  mkMesh (mkGeometry 0 (geo_width (geometry m)) (geo_height (geometry m)))
         (eraseMaterial (material m)) (mesh_rotation_y m) (mesh_position_z m).

Definition eraseSprite (s : Sprite) : Sprite :=
  mkSprite 0 (eraseTexture (sprite_map s)) (sprite_position s) (sprite_scale s)
           (renderOrder s).

Definition eraseIds (g : SheetGroup) : SheetGroup :=
  mkSheetGroup (eraseMesh (frontMesh g)) (eraseMesh (backMesh g))
               (option_map eraseSprite (label g)) (position g) (rotation_x g).

(** ** Variant 3: the flat stack drawn with style sheets, no scene *)

Module Flat.

Definition maxRenderedSheets : Z := 24.





End Flat.

(** ** Sample inputs *)

(** Seven pages, one copy, duplex: the odd-page example. *)
Definition sevenPagesDuplex : Refs :=
  mkRefs None false None None [] 7 1 Duplex Long Portrait.

(** Five pages, ten copies, simplex: fifty sheets. *)
Definition fiftySheets : Refs :=
  mkRefs None false None None [] 5 10 Simplex Long Portrait.

(** The world right after [initScene] found its preview element. *)
Definition mountedWorld : World := mkWorld (Some []) [] [] 0.

(** One page, one copy, simplex. *)
Definition onePage : Refs :=
  mkRefs None false None None [mkPageRender "page1" 600 800] 1 1 Simplex Long Portrait.

(** Twelve pages in two copies, duplex: twelve sheets. *)
Definition twelveSheets : Refs :=
  mkRefs None false None None [] 12 2 Duplex Long Portrait.

(** No pages and no copies, as a cleared number field may deliver. *)
Definition zeroPages : Refs :=
  mkRefs None false None None [] 0 0 Duplex Long Portrait.

(** A one-page document already on display, and a text file dropped on it. *)
Definition loadedDoc : Refs :=
  mkRefs (Some (mkFile "scan.png" "image/png")) false None (Some 1)
         [mkPageRender "data:image/png;base64,AAAA" 600 800]
         1 3 Duplex Short Portrait.

Definition textFile : File := mkFile "notes.txt" "text/plain".

(** Decoders that are never reached by a rejected file. *)
Definition noPdf : File -> Outcome Z := fun _ => Thrown None.
Definition noPages : File -> Z -> Outcome (list PageRender) := fun _ _ => Thrown None.
Definition noImage : File -> Outcome PageRender := fun _ => Thrown None.

(** A 75-page PDF whose pages render, one whose rendering fails, and an
    image that decodes. *)
Definition pdfFile : File := mkFile "report.pdf" "application/pdf".
Definition imageFile : File := mkFile "photo.jpg" "image/jpeg".
Definition longPdf : File -> Outcome Z := fun _ => Resolved 75.
Definition renderOne : File -> Z -> Outcome (list PageRender) :=
  fun _ _ => Resolved [mkPageRender "data:image/png;base64,BBBB" 612 792].
Definition renderFails : File -> Z -> Outcome (list PageRender) :=
  fun _ _ => Thrown (Some "Invalid page request."%string).
Definition decodeOk : File -> Outcome PageRender :=
  fun _ => Resolved (mkPageRender "data:image/png;base64,CCCC" 640 480).

(** * Properties *)

(** ** Arithmetic of the layout calculator *)

Lemma ceil_half (p : Z) : JS.ceil (inject_Z p / 2) = (p + 1) / 2.
Proof.
  unfold JS.ceil, Qceiling, Qfloor, Qdiv, Qmult, Qinv, Qopp, inject_Z; simpl.
  rewrite Z.mul_1_r.
  pose proof (Z.div_mod (- p) 2 ltac:(lia)) as H1.
  pose proof (Z.mod_pos_bound (- p) 2 ltac:(lia)) as H2.
  pose proof (Z.div_mod (p + 1) 2 ltac:(lia)) as H3.
  pose proof (Z.mod_pos_bound (p + 1) 2 ltac:(lia)) as H4.
  lia.
Qed.

Lemma isDuplex_true (r : Refs) : duplex r = Duplex -> isDuplex r = true.
Proof. unfold isDuplex; intros ->; reflexivity. Qed.

Lemma isDuplex_false (r : Refs) : duplex r = Simplex -> isDuplex r = false.
Proof. unfold isDuplex; intros ->; reflexivity. Qed.

Lemma sheetsPerCopy_duplex (r : Refs) :
  duplex r = Duplex -> sheetsPerCopy r = (pages r + 1) / 2.
Proof.
  intros H; unfold sheetsPerCopy; rewrite (isDuplex_true r H); apply ceil_half.
Qed.

Lemma sheetsPerCopy_simplex (r : Refs) :
  duplex r = Simplex -> sheetsPerCopy r = pages r.
Proof.
  intros H; unfold sheetsPerCopy; rewrite (isDuplex_false r H); reflexivity.
Qed.

Lemma sheetsPerCopy_pos (r : Refs) : 1 <= pages r -> 1 <= sheetsPerCopy r.
Proof.
  intros Hp; destruct (duplex r) eqn:E.
  - rewrite sheetsPerCopy_simplex by assumption; lia.
  - rewrite sheetsPerCopy_duplex by assumption.
    apply Z.div_le_lower_bound; lia.
Qed.

(** [sheetsPerCopy] agrees with its value at the clamped page count exactly
    on the valid page counts. *)
Lemma sheetsPerCopy_clamped_iff (r : Refs) :
  sheetsPerCopy r = sheetsPerCopy (clamped r) <-> 1 <= pages r.
Proof.
  destruct (duplex r) eqn:E.
  - rewrite (sheetsPerCopy_simplex r E), (sheetsPerCopy_simplex (clamped r) E).
    simpl; lia.
  - rewrite (sheetsPerCopy_duplex r E), (sheetsPerCopy_duplex (clamped r) E).
    simpl.
    pose proof (Z.div_mod (pages r + 1) 2 ltac:(lia)) as H1.
    pose proof (Z.mod_pos_bound (pages r + 1) 2 ltac:(lia)) as H2.
    pose proof (Z.div_mod (Z.max (pages r) 1 + 1) 2 ltac:(lia)) as H3.
    pose proof (Z.mod_pos_bound (Z.max (pages r) 1 + 1) 2 ltac:(lia)) as H4.
    lia.
Qed.

(** ** The state monad *)

Lemma exec_bind {A B : Type} (m : M A) (k : A -> M B) (w : World) :
  exec (bind m k) w = exec (k (eval m w)) (exec m w).
Proof. unfold exec, eval, bind; destruct (m w); reflexivity. Qed.

Lemma eval_bind {A B : Type} (m : M A) (k : A -> M B) (w : World) :
  eval (bind m k) w = eval (k (eval m w)) (exec m w).
Proof. unfold exec, eval, bind; destruct (m w); reflexivity. Qed.

Lemma allocating_ret {A : Type} (a : A) : allocating (ret a).
Proof.
  intros w; exists []; split; [|reflexivity].
  unfold exec, ret; simpl; rewrite app_nil_r, Nat.add_0_r; destruct w; reflexivity.
Qed.

Lemma allocating_bind {A B : Type} (m : M A) (k : A -> M B) :
  allocating m -> (forall a, allocating (k a)) -> allocating (bind m k).
Proof.
  intros Hm Hk w.
  destruct (Hm w) as (f1 & E1 & S1).
  destruct (Hk (eval m w) (exec m w)) as (f2 & E2 & S2).
  exists (f1 ++ f2); rewrite exec_bind, E2, E1; simpl; split.
  - rewrite length_app, app_assoc, Nat.add_assoc; reflexivity.
  - rewrite E1 in S2; simpl in S2.
    rewrite map_app, length_app, seq_app, S1, S2; reflexivity.
Qed.

(** Constructing a resource and pushing it at once is an allocation. *)
Lemma allocating_construct_push {A : Type} (kind : Kind) (k : nat -> M A) :
  (forall id, allocating (k id)) ->
  allocating (id <- construct ;; push (kind, id) ;; k id).
Proof.
  intros Hk w.
  destruct (Hk (next_uid w)
              (mkWorld (stackGroup w) (disposable w ++ [(kind, next_uid w)])
                       (disposed w) (S (next_uid w)))) as (f & E & S1).
  simpl in E, S1.
  exists ((kind, next_uid w) :: f); split.
  - rewrite !exec_bind.
    change (exec (k (next_uid w))
              (mkWorld (stackGroup w) (disposable w ++ [(kind, next_uid w)])
                       (disposed w) (S (next_uid w)))
            = mkWorld (stackGroup w) (disposable w ++ (kind, next_uid w) :: f)
                      (disposed w) (next_uid w + S (List.length f))).
    rewrite E, <- app_assoc; simpl; f_equal; lia.
  - simpl; f_equal; exact S1.
Qed.

Lemma allocating_createTexture (u : string) (rotation : Q) :
  allocating (createTexture u rotation).
Proof.
  unfold createTexture; apply allocating_construct_push.
  intros; apply allocating_ret.
Qed.

Lemma allocating_createPageMaterial (a b : Q) (c : bool) (u : option string) (rotation : Q) :
  allocating (createPageMaterial a b c u rotation).
Proof.
  unfold createPageMaterial; apply allocating_bind.
  - destruct u as [s|]; [destruct (JS.truthy (Some s))|].
    + apply allocating_bind; [apply allocating_createTexture|].
      intros; apply allocating_ret.
    + apply allocating_ret.
    + apply allocating_ret.
  - intros m; apply allocating_construct_push; intros; apply allocating_ret.
Qed.

(** The plane geometry is pushed by the caller right after construction. *)
Lemma allocating_geometry {A : Type} (gw gh : Q) (k : Geometry -> M A) :
  (forall g, allocating (k g)) ->
  allocating (g <- newPlaneGeometry gw gh ;; push (KGeometry, geo_uid g) ;; k g).
Proof.
  intros Hk w.
  destruct (allocating_construct_push KGeometry (fun id => k (mkGeometry id gw gh))
              (fun id => Hk _) w) as (f & E & S1).
  exists f; split; [|exact S1].
  rewrite <- E; reflexivity.
Qed.

Lemma allocating_createLabelSprite (ctx2d : bool) (text : string) :
  allocating (Grid.createLabelSprite ctx2d text).
Proof.
  unfold Grid.createLabelSprite; destruct ctx2d; simpl.
  - apply allocating_construct_push; intros.
    apply allocating_construct_push; intros; apply allocating_ret.
  - apply allocating_ret.
Qed.

Lemma allocating_cascade_buildSheet (r : Refs) (i : Z) :
  allocating (Cascade.buildSheet r i).
Proof.
  unfold Cascade.buildSheet; apply allocating_geometry; intros g.
  apply allocating_bind; [apply allocating_createPageMaterial|]; intros fm.
  apply allocating_bind; [apply allocating_createPageMaterial|]; intros bm.
  apply allocating_ret.
Qed.

Lemma allocating_grid_buildSheet (ctx2d : bool) (r : Refs) (i : Z) :
  allocating (Grid.buildSheet ctx2d r i).
Proof.
  unfold Grid.buildSheet; apply allocating_geometry; intros g.
  apply allocating_bind; [apply allocating_createPageMaterial|]; intros fm.
  apply allocating_bind; [apply allocating_createPageMaterial|]; intros bm.
  apply allocating_bind; [apply allocating_createLabelSprite|]; intros l.
  apply allocating_ret.
Qed.

(** ** Loops *)

Lemma removelast_cons_length {A : Type} (a : A) (l : list A) :
  List.length (removelast (a :: l)) = List.length l.
Proof.
  revert a; induction l as [|b l IH]; intros a; [reflexivity|].
  change (removelast (a :: b :: l)) with (a :: removelast (b :: l)).
  cbn [List.length]; rewrite IH; reflexivity.
Qed.

(** The pop loop of [disposeStack] empties the group when given as many
    steps as there are children. *)
Lemma popAll_enough (fuel : nat) (l : list SheetGroup) :
  (List.length l <= fuel)%nat -> popAll fuel l = [].
Proof.
  revert l; induction fuel as [|fuel IH]; intros [|g l] H; simpl in *;
    try reflexivity; try lia.
  apply IH.
  pose proof (removelast_cons_length g l) as E; simpl in E; rewrite E; lia.
Qed.

Lemma forRange_ext (body1 body2 : Z -> M unit) :
  (forall i w, body1 i w = body2 i w) ->
  forall count start w, forRange count start body1 w = forRange count start body2 w.
Proof.
  intros H count; induction count as [|count IH]; intros start w; simpl.
  - reflexivity.
  - unfold bind; rewrite H; destruct (body2 start w); apply IH.
Qed.

Lemma forRange_spec (mk : Z -> M SheetGroup) :
  (forall i, allocating (mk i)) ->
  forall count start w ch,
    stackGroup w = Some ch ->
    exists gs fresh,
      exec (forRange count start (fun i => g <- mk i ;; addToStack g)) w
      = mkWorld (Some (ch ++ gs)) (disposable w ++ fresh) (disposed w)
                (next_uid w + List.length fresh)
      /\ List.map uid_of fresh = seq (next_uid w) (List.length fresh)
      /\ List.length gs = count
      /\ forall k, (k < count)%nat ->
           exists w', nth_error gs k = Some (eval (mk (start + Z.of_nat k)) w').
Proof.
  intros Hmk count; induction count as [|count IH]; intros start w ch Hw.
  - exists [], []; simpl; repeat split.
    + unfold exec, ret; simpl.
      rewrite !app_nil_r, Nat.add_0_r, <- Hw; destruct w; reflexivity.
    + intros k Hk; lia.
  - destruct (Hmk start w) as (f1 & E1 & S1).
    set (g := eval (mk start) w).
    set (w1 := mkWorld (Some (ch ++ [g])) (disposable w ++ f1) (disposed w)
                       (next_uid w + List.length f1)).
    assert (Hstep : exec (g0 <- mk start ;; addToStack g0) w = w1).
    { rewrite exec_bind, E1; unfold exec, addToStack; simpl; rewrite Hw; reflexivity. }
    destruct (IH (start + 1) w1 (ch ++ [g]) eq_refl) as (gs & f2 & E2 & S2 & L2 & N2).
    exists (g :: gs), (f1 ++ f2).
    simpl forRange; rewrite exec_bind, Hstep, E2; simpl; repeat split.
    + rewrite <- !app_assoc, length_app, Nat.add_assoc; reflexivity.
    + simpl in S2; rewrite map_app, length_app, seq_app, S1, S2; reflexivity.
    + rewrite L2; reflexivity.
    + intros [|k] Hk.
      * exists w; simpl; rewrite Z.add_0_r; reflexivity.
      * assert (Hk' : (k < count)%nat) by lia.
        destruct (N2 k Hk') as (w' & Hn); exists w'; simpl nth_error.
        replace (start + Z.of_nat (S k)) with (start + 1 + Z.of_nat k) by lia.
        exact Hn.
Qed.

Lemma rebuild_unmounted (n : Z) (mk : Z -> M SheetGroup) (w : World) :
  stackGroup w = None -> exec (rebuild n mk) w = w.
Proof. intros H; unfold exec, rebuild; rewrite H; reflexivity. Qed.

(** What a rebuild does to a mounted world: the old resources move to the
    dispose log, the group holds exactly the new sheets, and [disposable]
    holds exactly the resources constructed for them. *)
Lemma rebuild_spec (n : Z) (mk : Z -> M SheetGroup) :
  (forall i, allocating (mk i)) ->
  forall w ch,
    stackGroup w = Some ch ->
    exists gs fresh,
      exec (rebuild n mk) w
      = mkWorld (Some gs) fresh (disposed w ++ disposable w)
                (next_uid w + List.length fresh)
      /\ List.map uid_of fresh = seq (next_uid w) (List.length fresh)
      /\ List.length gs = Z.to_nat n
      /\ forall k, (k < Z.to_nat n)%nat ->
           exists w', nth_error gs k = Some (eval (mk (Z.of_nat k)) w').
Proof.
  intros Hmk w ch Hw.
  set (w0 := mkWorld (Some []) [] (disposed w ++ disposable w) (next_uid w)).
  assert (E0 : exec (rebuild n mk) w
               = exec (forLoop n (fun i => g <- mk i ;; addToStack g)) w0).
  { unfold exec at 1, rebuild; rewrite Hw.
    change ((disposeStack ;; forLoop n (fun i => g <- mk i ;; addToStack g)) w)
      with (bind disposeStack
              (fun _ => forLoop n (fun i => g <- mk i ;; addToStack g)) w).
    fold (exec (bind disposeStack
              (fun _ => forLoop n (fun i => g <- mk i ;; addToStack g))) w).
    rewrite exec_bind; f_equal.
    unfold exec, disposeStack; rewrite Hw; simpl.
    rewrite popAll_enough by lia; reflexivity. }
  destruct (forRange_spec mk Hmk (Z.to_nat n) 0 w0 [] eq_refl)
    as (gs & fresh & E & S1 & L & N).
  exists gs, fresh; rewrite E0; unfold forLoop; rewrite E; simpl.
  repeat split; assumption.
Qed.

Lemma cascade_buildStack_rebuild (r : Refs) :
  Cascade.buildStack r = rebuild (Cascade.renderCount r) (Cascade.buildSheet r).
Proof. reflexivity. Qed.

Lemma grid_buildStack_rebuild (ctx2d : bool) (r : Refs) :
  Grid.buildStack ctx2d r = rebuild (Grid.renderCount r) (Grid.buildSheet ctx2d r).
Proof. reflexivity. Qed.

(** ** What one sheet shows *)

Lemma shown_createPageMaterial (a b : Q) (c : bool) (u : option string)
      (rotation : Q) (w : World) :
  shown (eval (createPageMaterial a b c u rotation) w) = faceOf u rotation.
Proof.
  unfold createPageMaterial; rewrite eval_bind.
  destruct u as [s|]; simpl; [destruct (negb (String.eqb s "")); reflexivity|].
  reflexivity.
Qed.

Ltac step_eval := repeat (rewrite eval_bind; cbv beta).

Lemma cascade_faces (r : Refs) (i : Z) (w : World) :
  frontFace (eval (Cascade.buildSheet r i) w) = faceOf (frontUrl r i) 0
  /\ backFace (eval (Cascade.buildSheet r i) w)
     = faceOf (backUrl r i) (Cascade.backRotation r).
Proof.
  unfold Cascade.buildSheet; step_eval.
  split; unfold frontFace, backFace, eval at 1, ret; simpl;
    apply shown_createPageMaterial.
Qed.

Lemma grid_faces (ctx2d : bool) (r : Refs) (i : Z) (w : World) :
  frontFace (eval (Grid.buildSheet ctx2d r i) w)
  = faceOf (frontUrl r i) (Grid.orientationRotation r)
  /\ backFace (eval (Grid.buildSheet ctx2d r i) w)
     = faceOf (backUrl r i) (Grid.backRotation r).
Proof.
  unfold Grid.buildSheet; step_eval.
  split; unfold frontFace, backFace, eval at 1, ret; simpl;
    apply shown_createPageMaterial.
Qed.

Lemma grid_placement (ctx2d : bool) (r : Refs) (i : Z) (w : World) :
  let g := eval (Grid.buildSheet ctx2d r i) w in
  position g = (Grid.x r i, 0%Q, Grid.z r i)
  /\ rotation_x g = degToRad (-18)
  /\ labelText g = if ctx2d then Some (JS.String (i + 1)) else None.
Proof.
  unfold Grid.buildSheet; step_eval.
  unfold eval at 1, ret; simpl; repeat split.
  unfold labelText; simpl.
  unfold Grid.createLabelSprite; destruct ctx2d; simpl; [|reflexivity].
  step_eval; reflexivity.
Qed.

(** A page index that is not below the page count gives no url. *)
Lemma urlAt_out_of_range (r : Refs) (n : JS.number) :
  JS.lt n (pageCount r) = false ->
  urlAt r (if JS.lt n (pageCount r) then Some n else None) = None.
Proof. intros ->; reflexivity. Qed.

Lemma sheetIndex_mod (r : Refs) (i : Z) :
  0 <= i -> 1 <= sheetsPerCopy r ->
  sheetIndex r i = JS.Int (i mod sheetsPerCopy r).
Proof.
  intros Hi Hs; unfold sheetIndex, JS.rem.
  destruct (Z.eqb_spec (sheetsPerCopy r) 0) as [E|_]; [lia|].
  rewrite Z.rem_mod_nonneg by lia; reflexivity.
Qed.

(** Inside the loop of [buildStack] the remainder is never [NaN], whatever
    the settings: a positive render count forces [sheetsPerCopy <> 0]. *)
Lemma sheetIndex_defined (r : Refs) (i : Z) :
  0 <= i < totalSheets r ->
  exists k, sheetIndex r i = JS.Int k /\ 0 <= k.
Proof.
  intros Hi; unfold sheetIndex, JS.rem.
  destruct (Z.eqb_spec (sheetsPerCopy r) 0) as [E|N].
  - unfold totalSheets in Hi; rewrite E in Hi; lia.
  - exists (Z.rem i (sheetsPerCopy r)); split; [reflexivity|].
    apply Z.rem_nonneg; lia.
Qed.

(** ** Claims about the layout calculator *)

(** C1.  For valid settings and every sheet index [i] in
    [[0, totalSheets)], the loop body of [buildStack] computes the copy-local
    index [i mod sheetsPerCopy]; in duplex mode the front page is twice that
    index and the back page is the next one; in simplex mode the front page
    is the index itself and the back page is [null]; and a page index that
    is not below the page count yields no url, so that the face built for it
    in either variant is blank. *)
Theorem sheet_mapping (r : Refs) (i : Z) :
  1 <= pages r ->
  0 <= i < totalSheets r ->
  let k := i mod sheetsPerCopy r in
  sheetIndex r i = JS.Int k
  /\ (duplex r = Duplex ->
      frontPage r i = JS.Int (k * 2) /\ backPage r i = Some (JS.Int (k * 2 + 1)))
  /\ (duplex r = Simplex ->
      frontPage r i = JS.Int k /\ backPage r i = None)
  /\ pageCount r = pages r
  /\ (forall p, frontPage r i = JS.Int p -> pageCount r <= p ->
      frontUrl r i = None
      /\ forall w ctx2d,
           frontFace (eval (Cascade.buildSheet r i) w) = None
           /\ frontFace (eval (Grid.buildSheet ctx2d r i) w) = None)
  /\ (forall p, backPage r i = Some (JS.Int p) -> pageCount r <= p ->
      backUrl r i = None
      /\ forall w ctx2d,
           backFace (eval (Cascade.buildSheet r i) w) = None
           /\ backFace (eval (Grid.buildSheet ctx2d r i) w) = None).
Proof.
  intros Hp Hi k.
  pose proof (sheetsPerCopy_pos r Hp) as Hs.
  assert (Hk : sheetIndex r i = JS.Int k) by (apply sheetIndex_mod; lia).
  split; [exact Hk|].
  split; [|split; [|split; [|split]]].
  - intros Hd; unfold frontPage, backPage.
    rewrite (isDuplex_true r Hd), Hk; split; reflexivity.
  - intros Hd; unfold frontPage, backPage.
    rewrite (isDuplex_false r Hd), Hk; split; reflexivity.
  - unfold pageCount; lia.
  - intros p Hf Hge.
    assert (Hu : frontUrl r i = None).
    { unfold frontUrl, frontIndex; apply urlAt_out_of_range.
      rewrite Hf; simpl; apply Z.ltb_ge; exact Hge. }
    split; [exact Hu|]; intros w ctx2d.
    destruct (cascade_faces r i w) as [-> _].
    destruct (grid_faces ctx2d r i w) as [-> _].
    rewrite Hu; split; reflexivity.
  - intros p Hb Hge.
    assert (Hu : backUrl r i = None).
    { unfold backUrl, backIndex; rewrite Hb.
      apply urlAt_out_of_range; simpl; apply Z.ltb_ge; exact Hge. }
    split; [exact Hu|]; intros w ctx2d.
    destruct (cascade_faces r i w) as [_ ->].
    destruct (grid_faces ctx2d r i w) as [_ ->].
    rewrite Hu; split; reflexivity.
Qed.

(** C2.  For every page count of at least 1: in duplex mode
    [sheetsPerCopy] is the ceiling of half the page count, that is the least
    integer [s] with [pages <= 2 * s] (equivalently [(pages + 1) / 2]); in
    simplex mode it is the page count. *)
Theorem sheetsPerCopy_ceil (r : Refs) :
  1 <= pages r ->
  (duplex r = Duplex ->
     sheetsPerCopy r = (pages r + 1) / 2
     /\ pages r <= 2 * sheetsPerCopy r < pages r + 2
     /\ (inject_Z (sheetsPerCopy r) - 1 < inject_Z (pages r) / 2
         <= inject_Z (sheetsPerCopy r))%Q)
  /\ (duplex r = Simplex -> sheetsPerCopy r = pages r).
Proof.
  intros Hp; split; [|apply sheetsPerCopy_simplex].
  intros Hd; rewrite (sheetsPerCopy_duplex r Hd).
  pose proof (Z.div_mod (pages r + 1) 2 ltac:(lia)) as H1.
  pose proof (Z.mod_pos_bound (pages r + 1) 2 ltac:(lia)) as H2.
  split; [reflexivity|]; split; [lia|].
  unfold Qlt, Qle, Qminus, Qdiv, Qplus, Qmult, Qinv, Qopp, inject_Z; simpl.
  lia.
Qed.

(** C3.  [totalSides] is the page count times the copies whatever the duplex
    mode, and [totalSheets] is [sheetsPerCopy] times the copies. *)
Theorem totals (r : Refs) :
  1 <= pages r -> 1 <= copies r ->
  totalSides r = pages r * copies r
  /\ totalSheets r = sheetsPerCopy r * copies r
  /\ (forall r', pages r' = pages r -> copies r' = copies r ->
        totalSides r' = totalSides r)
  /\ (duplex r = Duplex -> totalSheets r = (pages r + 1) / 2 * copies r)
  /\ (duplex r = Simplex -> totalSheets r = totalSides r).
Proof.
  intros _ _; unfold totalSides, totalSheets; repeat split.
  - intros r' -> ->; reflexivity.
  - intros Hd; rewrite (sheetsPerCopy_duplex r Hd); reflexivity.
  - intros Hd; rewrite (sheetsPerCopy_simplex r Hd); reflexivity.
Qed.

(** ** The render cap *)

Lemma built_count (n : Z) (mk : Z -> M SheetGroup) (w : World) (ch : list SheetGroup) :
  (forall i, allocating (mk i)) ->
  stackGroup w = Some ch ->
  List.length (children (exec (rebuild n mk) w)) = Z.to_nat n.
Proof.
  intros Hmk Hw.
  destruct (rebuild_spec n mk Hmk w ch Hw) as (gs & fresh & E & _ & L & _).
  rewrite E; exact L.
Qed.

(** The two display values add up whenever the sheet total is not
    negative. *)
Lemma cap_arith (cap total : Z) :
  0 <= total -> 0 <= cap ->
  Z.of_nat (Z.to_nat (Z.min total cap)) = Z.min total cap
  /\ Z.max (total - Z.min total cap) 0 = Z.max (total - cap) 0
  /\ Z.min total cap + Z.max (total - Z.min total cap) 0 = total.
Proof. lia. Qed.

(** C4.  For valid settings and either cap (24 in the cascade variant, 100 in
    the grid variant), once [initScene] has created the stack group: the
    number of sheets placed in the stack group by [buildStack] is
    [min (totalSheets, cap)], which is also the displayed [renderedSheets];
    [hiddenSheets] is [max (totalSheets - cap, 0)]; the two add up to
    [totalSheets]; and never more than [cap] sheets are built.  (The
    arithmetic part needs only [0 <= totalSheets], see [cap_arith].) *)
Theorem render_cap (r : Refs) (w : World) (ch : list SheetGroup) (ctx2d : bool) :
  1 <= pages r -> 1 <= copies r ->
  stackGroup w = Some ch ->
  let built24 := Z.of_nat (List.length (children (exec (Cascade.buildStack r) w))) in
  let built100 := Z.of_nat (List.length (children (exec (Grid.buildStack ctx2d r) w))) in
  (built24 = Z.min (totalSheets r) 24
   /\ built24 = renderedSheets 24 r
   /\ hiddenSheets 24 r = Z.max (totalSheets r - 24) 0
   /\ built24 + hiddenSheets 24 r = totalSheets r
   /\ built24 <= 24)
  /\ (built100 = Z.min (totalSheets r) 100
      /\ built100 = renderedSheets 100 r
      /\ hiddenSheets 100 r = Z.max (totalSheets r - 100) 0
      /\ built100 + hiddenSheets 100 r = totalSheets r
      /\ built100 <= 100).
Proof.
  intros Hp Hc Hw built24 built100.
  pose proof (sheetsPerCopy_pos r Hp) as Hs.
  assert (Ht : 0 <= totalSheets r) by (unfold totalSheets; nia).
  assert (E24 : built24 = Z.min (totalSheets r) 24).
  { unfold built24; rewrite cascade_buildStack_rebuild.
    rewrite (built_count _ _ w ch (allocating_cascade_buildSheet r) Hw).
    apply (cap_arith 24 (totalSheets r)); lia. }
  assert (E100 : built100 = Z.min (totalSheets r) 100).
  { unfold built100; rewrite grid_buildStack_rebuild.
    rewrite (built_count _ _ w ch (allocating_grid_buildSheet ctx2d r) Hw).
    apply (cap_arith 100 (totalSheets r)); lia. }
  unfold hiddenSheets, renderedSheets; rewrite E24, E100.
  repeat split; lia.
Qed.

(** ** Instances of the layout claims *)

Lemma sheet_mapping_witness :
  1 <= pages sevenPagesDuplex
  /\ 0 <= 3 < totalSheets sevenPagesDuplex
  /\ sheetIndex sevenPagesDuplex 3 = JS.Int 3
  /\ frontPage sevenPagesDuplex 3 = JS.Int 6
  /\ backPage sevenPagesDuplex 3 = Some (JS.Int 7)
  /\ backUrl sevenPagesDuplex 3 = None
  /\ backFace (eval (Cascade.buildSheet sevenPagesDuplex 3) mountedWorld) = None.
Proof.
  assert (H1 : 1 <= pages sevenPagesDuplex) by (simpl; lia).
  assert (H2 : 0 <= 3 < totalSheets sevenPagesDuplex) by (vm_compute; split; congruence).
  destruct (sheet_mapping sevenPagesDuplex 3 H1 H2) as (A & B & _ & _ & _ & D).
  destruct (B eq_refl) as [B1 B2].
  destruct (D 7 B2 ltac:(vm_compute; congruence)) as [D1 D2].
  destruct (D2 mountedWorld true) as [D3 _].
  repeat split; try assumption; try exact (proj1 H2); try exact (proj2 H2).
Defined.

Lemma sheetsPerCopy_ceil_witness :
  1 <= pages sevenPagesDuplex
  /\ sheetsPerCopy sevenPagesDuplex = 4
  /\ sheetsPerCopy fiftySheets = 5.
Proof.
  split; [simpl; lia|]; split.
  - destruct (sheetsPerCopy_ceil sevenPagesDuplex ltac:(simpl; lia)) as [A _].
    exact (proj1 (A eq_refl)).
  - destruct (sheetsPerCopy_ceil fiftySheets ltac:(simpl; lia)) as [_ B].
    exact (B eq_refl).
Defined.

Lemma totals_witness :
  1 <= pages fiftySheets /\ 1 <= copies fiftySheets
  /\ totalSides fiftySheets = 50 /\ totalSheets fiftySheets = 50.
Proof.
  assert (H1 : 1 <= pages fiftySheets) by (simpl; lia).
  assert (H2 : 1 <= copies fiftySheets) by (simpl; lia).
  destruct (totals fiftySheets H1 H2) as (A & B & _).
  repeat split; first [assumption | exact A | exact B].
Defined.

Lemma render_cap_witness :
  1 <= pages fiftySheets /\ 1 <= copies fiftySheets
  /\ stackGroup mountedWorld = Some []
  /\ Z.of_nat (List.length (children (exec (Cascade.buildStack fiftySheets) mountedWorld))) = 24
  /\ hiddenSheets 24 fiftySheets = 26
  /\ Z.of_nat (List.length (children (exec (Grid.buildStack true fiftySheets) mountedWorld))) = 50
  /\ hiddenSheets 100 fiftySheets = 0.
Proof.
  assert (H1 : 1 <= pages fiftySheets) by (simpl; lia).
  assert (H2 : 1 <= copies fiftySheets) by (simpl; lia).
  destruct (render_cap fiftySheets mountedWorld [] true H1 H2 eq_refl)
    as [(A & _ & B & _) (C & _ & D & _)].
  repeat split; first [assumption | exact A | exact B | exact C | exact D].
Defined.

(** ** The sheets found in the stack group after a rebuild *)

Lemma built_sheet (n : Z) (mk : Z -> M SheetGroup) (w : World)
      (ch : list SheetGroup) (i : Z) :
  (forall j, allocating (mk j)) ->
  stackGroup w = Some ch ->
  0 <= i < n ->
  exists w', nth_error (children (exec (rebuild n mk) w)) (Z.to_nat i)
             = Some (eval (mk i) w').
Proof.
  intros Hmk Hw Hi.
  destruct (rebuild_spec n mk Hmk w ch Hw) as (gs & fresh & E & _ & _ & N).
  destruct (N (Z.to_nat i) ltac:(lia)) as (w' & Hn).
  exists w'; rewrite E; unfold children; cbn [stackGroup].
  rewrite Hn, Z2Nat.id by lia; reflexivity.
Qed.

Lemma built_sheet_inv (n : Z) (mk : Z -> M SheetGroup) (w : World) (g : SheetGroup) :
  (forall j, allocating (mk j)) ->
  In g (children (exec (rebuild n mk) w)) ->
  exists i w', 0 <= i < n /\ g = eval (mk i) w'.
Proof.
  intros Hmk Hin.
  destruct (stackGroup w) as [ch|] eqn:Hw.
  - destruct (rebuild_spec n mk Hmk w ch Hw) as (gs & fresh & E & _ & L & N).
    rewrite E in Hin; unfold children in Hin; cbn [stackGroup] in Hin.
    destruct (In_nth_error _ _ Hin) as (k & Hk).
    assert (Hlt : (k < Z.to_nat n)%nat).
    { rewrite <- L; apply nth_error_Some; rewrite Hk; discriminate. }
    destruct (N k Hlt) as (w' & Hn).
    exists (Z.of_nat k), w'; split; [lia|congruence].
  - rewrite rebuild_unmounted in Hin by assumption.
    unfold children in Hin; rewrite Hw in Hin; destruct Hin.
Qed.

(** ** Orientation and flip edge (grid variant) *)

(** C5.  In the orientation-aware variant, for every page source: in
    landscape orientation the flip edge applied to the back face is the
    complement of the selected one, in portrait it is the selected one; with
    landscape and long edge the flip part of the back rotation is the
    short-edge value pi (180 degrees); the back rotation is the flip part
    (pi for an effective short edge, 0 otherwise) plus the orientation
    rotation, which is 0 when the requested and the source orientation agree
    and pi/2 (90 degrees) otherwise; and this is the rotation carried by the
    back texture of every sheet that has a back image. *)
Theorem landscape_swaps_flip (r : Refs) :
  (orientation r = Landscape ->
     Grid.effectiveFlip r = match flip r with Long => Short | Short => Long end)
  /\ (orientation r = Portrait -> Grid.effectiveFlip r = flip r)
  /\ (orientation r = Landscape -> flip r = Long ->
        Grid.effectiveFlip r = Short
        /\ Grid.backRotation r = (PI + Grid.orientationRotation r)%Q)
  /\ Grid.backRotation r
     = ((match Grid.effectiveFlip r with Short => PI | Long => 0 end)
        + Grid.orientationRotation r)%Q
  /\ Grid.orientationRotation r
     = (if Bool.eqb (isLandscape r) (Grid.isSourceLandscape r) then 0 else PI / 2)%Q
  /\ (degToRad 180 == PI /\ degToRad 90 == PI / 2)%Q
  /\ (forall ctx2d i w u,
        backUrl r i = Some u -> u <> EmptyString ->
        backFace (eval (Grid.buildSheet ctx2d r i) w)
        = Some (FromUrl u, Grid.backRotation r)).
Proof.
  unfold Grid.backRotation, Grid.effectiveFlip, isLandscape.
  split; [|split; [|split; [|split; [|split; [|split]]]]].
  - intros ->; destruct (flip r); reflexivity.
  - intros ->; reflexivity.
  - intros -> ->; split; reflexivity.
  - destruct (orientation r), (flip r); reflexivity.
  - reflexivity.
  - split; reflexivity.
  - intros ctx2d i w u Hu Hne.
    destruct (grid_faces ctx2d r i w) as [_ ->].
    rewrite Hu; unfold faceOf, JS.truthy.
    destruct (String.eqb_spec u EmptyString) as [E|_]; [contradiction|reflexivity].
Qed.

Lemma landscape_swaps_flip_witness :
  let r := mkRefs None false None None
             [mkPageRender "p1" 800 600; mkPageRender "p2" 800 600]
             2 1 Duplex Long Landscape in
  orientation r = Landscape /\ flip r = Long
  /\ Grid.effectiveFlip r = Short
  /\ Grid.backRotation r = (PI + 0)%Q
  /\ backFace (eval (Grid.buildSheet true r 0) mountedWorld)
     = Some (FromUrl "p2", (PI + 0)%Q).
Proof.
  intros r.
  destruct (landscape_swaps_flip r) as (_ & _ & A & _ & _ & _ & B).
  destruct (A eq_refl eq_refl) as [A1 A2].
  split; [reflexivity|]; split; [reflexivity|].
  split; [exact A1|]; split; [exact A2|].
  apply (B true 0 mountedWorld "p2"%string eq_refl); discriminate.
Defined.

(** ** The grid *)

Lemma columns_range (r : Refs) : 1 <= Grid.columns r <= 10.
Proof. unfold Grid.columns; lia. Qed.

Lemma floor_quotient (a b : Z) :
  JS.floor (inject_Z a / inject_Z b) = a / b.
Proof. unfold JS.floor; symmetry; apply Zdiv_Qdiv. Qed.

Lemma ceil_quotient (a b : Z) :
  JS.ceil (inject_Z a / inject_Z b) = - ((- a) / b).
Proof.
  unfold JS.ceil, Qceiling; f_equal.
  rewrite Zdiv_Qdiv; apply Qfloor_comp.
  unfold Qdiv; rewrite inject_Z_opp; ring.
Qed.

Lemma rows_ceil (r : Refs) :
  (Grid.rows r - 1) * Grid.columns r < Grid.renderCount r
                                       <= Grid.rows r * Grid.columns r.
Proof.
  pose proof (columns_range r) as Hc.
  unfold Grid.rows; rewrite ceil_quotient.
  pose proof (Z.div_mod (- Grid.renderCount r) (Grid.columns r) ltac:(lia)) as H1.
  pose proof (Z.mod_pos_bound (- Grid.renderCount r) (Grid.columns r) ltac:(lia)) as H2.
  nia.
Qed.

Lemma col_mod (r : Refs) (i : Z) :
  0 <= i ->
  Grid.col r i = i mod Grid.columns r
  /\ JS.rem i (Grid.columns r) = JS.Int (Grid.col r i).
Proof.
  intros Hi; pose proof (columns_range r) as Hc.
  unfold Grid.col, JS.rem.
  destruct (Z.eqb_spec (Grid.columns r) 0) as [E|_]; [lia|].
  rewrite Z.rem_mod_nonneg by lia; split; reflexivity.
Qed.

(** Columns mirrored about the middle of the grid sit at opposite [x]. *)
Lemma x_mirror (r : Refs) (i j : Z) :
  Grid.col r i + Grid.col r j = Grid.columns r - 1 ->
  (Grid.x r i == - Grid.x r j)%Q.
Proof.
  intros H; unfold Grid.x, Grid.totalWidth; rewrite <- H, inject_Z_plus.
  field.
Qed.

(** Rows mirrored about the middle of the grid sit at opposite [z]. *)
Lemma z_mirror (r : Refs) (i j : Z) :
  Grid.row r i + Grid.row r j = Grid.rows r - 1 ->
  (Grid.z r i == - Grid.z r j)%Q.
Proof.
  intros H; unfold Grid.z, Grid.totalDepth; rewrite <- H, inject_Z_plus.
  field.
Qed.

(** C9 (as amended).  In the grid variant, for every render count of at
    least 1: the grid has [min (10, max (1, renderCount))] columns and
    [ceil (renderCount / columns)] rows; sheet [i] sits in column
    [i mod columns] and row [floor (i / columns)], at the [x] and [z] of that
    cell; cells mirrored about the middle have opposite coordinates, so the
    grid is centred on the origin; every sheet is pitched back by the same
    18 degrees; and every sheet carries a label reading [String(i + 1)]
    provided the canvas hands out a 2D context -- without one the sheet is
    built with no label. *)
Theorem grid_layout (ctx2d : bool) (r : Refs) (w : World) (ch : list SheetGroup) :
  1 <= Grid.renderCount r ->
  stackGroup w = Some ch ->
  let n := Grid.renderCount r in
  let c := Grid.columns r in
  c = Z.min 10 (Z.max 1 n)
  /\ 1 <= c <= 10
  /\ (Grid.rows r - 1) * c < n <= Grid.rows r * c
  /\ (forall i, 0 <= i < n ->
        Grid.col r i = i mod c
        /\ Grid.row r i = i / c
        /\ exists g,
             nth_error (children (exec (Grid.buildStack ctx2d r) w)) (Z.to_nat i) = Some g
             /\ position g = (Grid.x r i, 0%Q, Grid.z r i)
             /\ rotation_x g = degToRad (-18)
             /\ labelText g = if ctx2d then Some (JS.String (i + 1)) else None)
  /\ (forall i j, Grid.col r i + Grid.col r j = c - 1 -> (Grid.x r i == - Grid.x r j)%Q)
  /\ (forall i j, Grid.row r i + Grid.row r j = Grid.rows r - 1 ->
        (Grid.z r i == - Grid.z r j)%Q)
  /\ (degToRad (-18) < 0)%Q.
Proof.
  intros Hn Hw n c.
  split; [reflexivity|].
  split; [apply columns_range|].
  split; [apply rows_ceil|].
  split; [|split; [apply x_mirror|split; [apply z_mirror|reflexivity]]].
  intros i Hi.
  split; [apply col_mod; lia|].
  split; [apply floor_quotient|].
  rewrite grid_buildStack_rebuild.
  destruct (built_sheet n (Grid.buildSheet ctx2d r) w ch i
              (allocating_grid_buildSheet ctx2d r) Hw Hi) as (w' & Hg).
  exists (eval (Grid.buildSheet ctx2d r i) w'); split; [exact Hg|].
  apply grid_placement.
Qed.

Lemma grid_layout_witness :
  1 <= Grid.renderCount twelveSheets
  /\ stackGroup mountedWorld = Some []
  /\ Grid.columns twelveSheets = 10
  /\ Grid.rows twelveSheets = 2
  /\ Grid.col twelveSheets 11 = 1
  /\ Grid.row twelveSheets 11 = 1
  /\ exists g,
       nth_error (children (exec (Grid.buildStack true twelveSheets) mountedWorld)) 11
       = Some g
       /\ labelText g = Some "12"%string.
Proof.
  assert (H1 : 1 <= Grid.renderCount twelveSheets) by (vm_compute; congruence).
  destruct (grid_layout true twelveSheets mountedWorld [] H1 eq_refl)
    as (A & _ & _ & B & _).
  destruct (B 11 ltac:(vm_compute; split; congruence)) as (B1 & B2 & g & Hg & _ & _ & Hl).
  split; [exact H1|]; split; [reflexivity|].
  split; [reflexivity|]; split; [reflexivity|].
  split; [reflexivity|]; split; [reflexivity|].
  exists g; split; [exact Hg|exact Hl].
Defined.

(** The claim C9 as stated fails when the canvas gives no 2D context:
    [createLabelSprite] returns [null] and the sheet is added without a
    label. *)
Lemma grid_label_counterexample :
  1 <= Grid.renderCount onePage
  /\ stackGroup mountedWorld = Some []
  /\ ~ (forall i, 0 <= i < Grid.renderCount onePage ->
          exists g,
            nth_error (children (exec (Grid.buildStack false onePage) mountedWorld))
                      (Z.to_nat i) = Some g
            /\ labelText g = Some (JS.String (i + 1))).
Proof.
  split; [vm_compute; congruence|]; split; [reflexivity|].
  intros H.
  destruct (H 0 ltac:(vm_compute; split; congruence)) as (g & Hg & Hl).
  vm_compute in Hg; injection Hg as <-.
  vm_compute in Hl; discriminate.
Qed.

(** ** Simplex mode and the flip edge *)

Lemma backUrl_simplex (r : Refs) (i : Z) :
  duplex r = Simplex -> backUrl r i = None.
Proof.
  intros H; unfold backUrl, backIndex, backPage.
  rewrite (isDuplex_false r H); reflexivity.
Qed.

Lemma cascade_buildSheet_flip (r : Refs) (f1 f2 : FlipMode) (i : Z) (w : World) :
  duplex r = Simplex ->
  Cascade.buildSheet (set_flip f1 r) i w = Cascade.buildSheet (set_flip f2 r) i w.
Proof.
  intros H; unfold Cascade.buildSheet.
  rewrite (backUrl_simplex (set_flip f1 r) i H), (backUrl_simplex (set_flip f2 r) i H).
  reflexivity.
Qed.

Lemma grid_buildSheet_flip (ctx2d : bool) (r : Refs) (f1 f2 : FlipMode) (i : Z) (w : World) :
  duplex r = Simplex ->
  Grid.buildSheet ctx2d (set_flip f1 r) i w = Grid.buildSheet ctx2d (set_flip f2 r) i w.
Proof.
  intros H; unfold Grid.buildSheet.
  rewrite (backUrl_simplex (set_flip f1 r) i H), (backUrl_simplex (set_flip f2 r) i H).
  reflexivity.
Qed.

Lemma rebuild_ext (n : Z) (mk1 mk2 : Z -> M SheetGroup) (w : World) :
  (forall i w', mk1 i w' = mk2 i w') ->
  rebuild n mk1 w = rebuild n mk2 w.
Proof.
  intros H; unfold rebuild; destruct (stackGroup w); [|reflexivity].
  unfold bind; destruct (disposeStack w) as [u w0]; unfold forLoop.
  apply forRange_ext; intros i w'; rewrite H; reflexivity.
Qed.

(** C10.  In simplex mode the flip setting does not reach the output: for
    any two flip values, with everything else equal, both variants of
    [buildStack] leave the same world (the same sheets, materials, textures
    and resource ledger); every sheet built has a blank back face; and the
    rotation of a front texture is 0 in the cascade variant and the
    orientation rotation in the grid variant, never the flip rotation. *)
Theorem simplex_ignores_flip (r : Refs) (w : World) (f1 f2 : FlipMode) (ctx2d : bool) :
  duplex r = Simplex ->
  Cascade.buildStack (set_flip f1 r) w = Cascade.buildStack (set_flip f2 r) w
  /\ Grid.buildStack ctx2d (set_flip f1 r) w = Grid.buildStack ctx2d (set_flip f2 r) w
  /\ (forall g, In g (children (exec (Cascade.buildStack r) w)) ->
        backFace g = None
        /\ forall src rot, frontFace g = Some (src, rot) -> rot = 0%Q)
  /\ (forall g, In g (children (exec (Grid.buildStack ctx2d r) w)) ->
        backFace g = None
        /\ forall src rot, frontFace g = Some (src, rot) ->
                           rot = Grid.orientationRotation r).
Proof.
  intros H; split; [|split; [|split]].
  - rewrite !cascade_buildStack_rebuild.
    apply (rebuild_ext (Cascade.renderCount r)); intros i w'.
    apply cascade_buildSheet_flip; exact H.
  - rewrite !grid_buildStack_rebuild.
    apply (rebuild_ext (Grid.renderCount r)); intros i w'.
    apply grid_buildSheet_flip; exact H.
  - intros g Hg; rewrite cascade_buildStack_rebuild in Hg.
    destruct (built_sheet_inv _ _ w g (allocating_cascade_buildSheet r) Hg)
      as (i & w' & _ & ->).
    destruct (cascade_faces r i w') as [-> ->].
    rewrite (backUrl_simplex r i H); split; [reflexivity|].
    intros src rot; unfold faceOf.
    destruct (frontUrl r i) as [s|]; [destruct (JS.truthy (Some s))|];
      congruence.
  - intros g Hg; rewrite grid_buildStack_rebuild in Hg.
    destruct (built_sheet_inv _ _ w g (allocating_grid_buildSheet ctx2d r) Hg)
      as (i & w' & _ & ->).
    destruct (grid_faces ctx2d r i w') as [-> ->].
    rewrite (backUrl_simplex r i H); split; [reflexivity|].
    intros src rot; unfold faceOf.
    destruct (frontUrl r i) as [s|]; [destruct (JS.truthy (Some s))|];
      congruence.
Qed.

Lemma simplex_ignores_flip_witness :
  duplex onePage = Simplex
  /\ Cascade.buildStack (set_flip Long onePage) mountedWorld
     = Cascade.buildStack (set_flip Short onePage) mountedWorld
  /\ Grid.buildStack true (set_flip Long onePage) mountedWorld
     = Grid.buildStack true (set_flip Short onePage) mountedWorld.
Proof.
  destruct (simplex_ignores_flip onePage mountedWorld Long Short true eq_refl)
    as (A & B & _).
  split; [reflexivity|]; split; [exact A|exact B].
Defined.

(** In duplex mode, by contrast, the flip edge does reach the back texture. *)
Lemma duplex_flip_matters :
  let r := mkRefs None false None None
             [mkPageRender "p1" 600 800; mkPageRender "p2" 600 800]
             2 1 Duplex Long Portrait in
  exec (Cascade.buildStack (set_flip Long r)) mountedWorld
  <> exec (Cascade.buildStack (set_flip Short r)) mountedWorld.
Proof. vm_compute; discriminate. Qed.

(** ** The resource ledger *)

Lemma ledger_initScene (previewRef : bool) :
  ledger (exec (Cascade.initScene previewRef) emptyWorld)
  /\ ledger (exec (Grid.initScene previewRef) emptyWorld).
Proof.
  destruct previewRef; repeat split; simpl; try apply perm_nil; discriminate.
Qed.

Lemma ledger_disposeStack (w : World) :
  ledger w ->
  ledger (exec disposeStack w) /\ disposable (exec disposeStack w) = [].
Proof.
  intros [P _]; unfold exec, disposeStack.
  destruct (stackGroup w); unfold ledger;
    cbn [snd disposed disposable next_uid stackGroup];
    rewrite app_nil_r; repeat split; auto.
Qed.

Lemma ledger_rebuild (n : Z) (mk : Z -> M SheetGroup) (w : World) :
  (forall i, allocating (mk i)) ->
  ledger w -> ledger (exec (rebuild n mk) w).
Proof.
  intros Hmk [P Hnone].
  destruct (stackGroup w) as [ch|] eqn:Hw.
  - destruct (rebuild_spec n mk Hmk w ch Hw) as (gs & fresh & E & S1 & _).
    rewrite E; split; simpl; [|discriminate].
    rewrite map_app, seq_app, S1; simpl.
    apply Permutation_app_tail; exact P.
  - rewrite rebuild_unmounted by assumption.
    split; [exact P|intros _; exact (Hnone eq_refl)].
Qed.

(** A rebuild disposes of everything the previous rebuild pushed, and what
    waits in [disposable] afterwards was constructed by this rebuild. *)
Lemma rebuild_releases (n : Z) (mk : Z -> M SheetGroup) (w : World) :
  (forall i, allocating (mk i)) ->
  ledger w ->
  incl (disposable w) (disposed (exec (rebuild n mk) w))
  /\ (forall x, In x (disposable (exec (rebuild n mk) w)) ->
        (next_uid w <= uid_of x)%nat).
Proof.
  intros Hmk [P Hnone].
  destruct (stackGroup w) as [ch|] eqn:Hw.
  - destruct (rebuild_spec n mk Hmk w ch Hw) as (gs & fresh & E & S1 & _).
    rewrite E; simpl.
    split; [apply incl_appr, incl_refl|].
    intros x Hx.
    assert (Hin : In (uid_of x) (List.map uid_of fresh)) by (apply in_map; exact Hx).
    rewrite S1 in Hin; apply in_seq in Hin; lia.
  - rewrite rebuild_unmounted by assumption.
    rewrite (Hnone eq_refl).
    split; [apply incl_nil_l|intros x []].
Qed.

Lemma ledger_cascadeSession (previewRef : bool) (inputs : list Refs) :
  ledger (cascadeSession previewRef inputs).
Proof.
  unfold cascadeSession.
  generalize (proj1 (ledger_initScene previewRef)).
  generalize (exec (Cascade.initScene previewRef) emptyWorld).
  induction inputs as [|r inputs IH]; intros w Hw; simpl; [exact Hw|].
  apply IH; rewrite cascade_buildStack_rebuild.
  apply ledger_rebuild; [apply allocating_cascade_buildSheet|exact Hw].
Qed.

Lemma ledger_gridSession (previewRef : bool) (inputs : list (bool * Refs)) :
  ledger (gridSession previewRef inputs).
Proof.
  unfold gridSession.
  generalize (proj2 (ledger_initScene previewRef)).
  generalize (exec (Grid.initScene previewRef) emptyWorld).
  induction inputs as [|[c r] inputs IH]; intros w Hw; simpl; [exact Hw|].
  apply IH; rewrite grid_buildStack_rebuild.
  apply ledger_rebuild; [apply allocating_grid_buildSheet|exact Hw].
Qed.

Lemma count_occ_seq (n id : nat) :
  count_occ Nat.eq_dec (seq 0 n) id = if Nat.ltb id n then 1%nat else 0%nat.
Proof.
  destruct (Nat.ltb_spec id n) as [Hlt|Hge].
  - apply NoDup_count_occ'; [apply seq_NoDup|apply in_seq; lia].
  - apply count_occ_not_In; rewrite in_seq; lia.
Qed.

Lemma filter_none {A : Type} (f : A -> bool) (l : list A) :
  (forall a, In a l -> f a = false) -> filter f l = [].
Proof.
  induction l as [|a l IH]; intros H; simpl; [reflexivity|].
  rewrite (H a (or_introl eq_refl)); apply IH.
  intros b Hb; apply H; right; exact Hb.
Qed.

(** Once [disposable] is empty, the ledger says that every resource ever
    constructed has been disposed exactly once. *)
Lemma ledger_settled (w : World) :
  ledger w -> disposable w = [] ->
  (forall id, (id < next_uid w)%nat -> releases w id = 1%nat)
  /\ (forall id, (next_uid w <= id)%nat -> releases w id = 0%nat)
  /\ unreleased w = 0%nat.
Proof.
  intros [P _] E; rewrite E, app_nil_r in P.
  assert (R : forall id, releases w id = if Nat.ltb id (next_uid w) then 1%nat else 0%nat).
  { intros id; unfold releases.
    rewrite (proj1 (Permutation_count_occ Nat.eq_dec _ _) P id).
    apply count_occ_seq. }
  split; [|split].
  - intros id H; rewrite R; apply Nat.ltb_lt in H; rewrite H; reflexivity.
  - intros id H; rewrite R; apply Nat.ltb_ge in H; rewrite H; reflexivity.
  - unfold unreleased.
    rewrite filter_none; [reflexivity|].
    intros id Hid; apply in_seq in Hid.
    rewrite R; destruct (Nat.ltb_spec id (next_uid w)); [reflexivity|lia].
Qed.

Lemma session_teardown (w : World) :
  ledger w ->
  let final := exec disposeStack w in
  disposable final = []
  /\ (forall id, (id < next_uid final)%nat -> releases final id = 1%nat)
  /\ (forall id, (next_uid final <= id)%nat -> releases final id = 0%nat)
  /\ unreleased final = 0%nat
  /\ next_uid final = next_uid w.
Proof.
  intros L final.
  destruct (ledger_disposeStack w L) as [L' E].
  destruct (ledger_settled final L' E) as (A & B & C).
  repeat split; try assumption.
  unfold final, exec, disposeStack; destruct (stackGroup w); reflexivity.
Qed.

(** C8.  For every sequence of rebuilds (one per entry of [inputs], each
    with its own settings) followed by teardown: [disposable] is empty, every
    texture, material and geometry constructed during the session has been
    disposed exactly once, nothing that was not constructed has been
    disposed, and the number of constructed-but-undisposed resources is 0.
    Moreover each rebuild disposes of every resource left by the previous one
    and leaves in [disposable] only resources it constructed itself.  This
    holds for the cascade variant and for the grid variant (whose labels own
    a texture and a material each), whether or not the scene was mounted. *)
Theorem no_leak (previewRef : bool) (inputs : list Refs) (ginputs : list (bool * Refs)) :
  (let w := cascadeSession previewRef inputs in
   let final := exec Cascade.onBeforeUnmount w in
   disposable final = []
   /\ (forall id, (id < next_uid final)%nat -> releases final id = 1%nat)
   /\ (forall id, (next_uid final <= id)%nat -> releases final id = 0%nat)
   /\ unreleased final = 0%nat
   /\ next_uid final = next_uid w
   /\ forall r, let w' := exec (Cascade.buildStack r) w in
        incl (disposable w) (disposed w')
        /\ forall x, In x (disposable w') -> (next_uid w <= uid_of x)%nat)
  /\ (let w := gridSession previewRef ginputs in
      let final := exec Grid.onBeforeUnmount w in
      disposable final = []
      /\ (forall id, (id < next_uid final)%nat -> releases final id = 1%nat)
      /\ (forall id, (next_uid final <= id)%nat -> releases final id = 0%nat)
      /\ unreleased final = 0%nat
      /\ next_uid final = next_uid w
      /\ forall ctx2d r, let w' := exec (Grid.buildStack ctx2d r) w in
           incl (disposable w) (disposed w')
           /\ forall x, In x (disposable w') -> (next_uid w <= uid_of x)%nat).
Proof.
  split.
  - pose proof (ledger_cascadeSession previewRef inputs) as L.
    destruct (session_teardown _ L) as (A & B & C & D & E).
    repeat (split; [assumption|]).
    intros r; rewrite cascade_buildStack_rebuild.
    apply rebuild_releases; [apply allocating_cascade_buildSheet|exact L].
  - pose proof (ledger_gridSession previewRef ginputs) as L.
    destruct (session_teardown _ L) as (A & B & C & D & E).
    repeat (split; [assumption|]).
    intros ctx2d r; rewrite grid_buildStack_rebuild.
    apply rebuild_releases; [apply allocating_grid_buildSheet|exact L].
Qed.

(** Three rebuilds of the cascade stack and teardown: 4 + 36 + 4 resources
    constructed, none left. *)
Lemma no_leak_witness :
  let final := exec Cascade.onBeforeUnmount
                 (cascadeSession true [onePage; twelveSheets; onePage]) in
  disposable final = []
  /\ unreleased final = 0%nat
  /\ releases final 0 = 1%nat
  /\ next_uid final = 44%nat.
Proof.
  destruct (no_leak true [onePage; twelveSheets; onePage] []) as [(A & B & _ & C & _) _].
  split; [exact A|]; split; [exact C|]; split; [|reflexivity].
  apply B; vm_compute; lia.
Defined.

(** ** Out-of-range settings *)

(** The claim C6 as stated fails: with no pages and no copies the derived
    counts are those of the raw values, not of the values clamped to 1. *)
Lemma clamp_counterexample :
  sheetsPerCopy zeroPages <> sheetsPerCopy (clamped zeroPages)
  /\ totalSheets zeroPages <> totalSheets (clamped zeroPages)
  /\ totalSides zeroPages <> totalSides (clamped zeroPages)
  /\ List.length (children (exec (Cascade.buildStack zeroPages) mountedWorld))
     <> List.length (children (exec (Cascade.buildStack (clamped zeroPages)) mountedWorld)).
Proof. vm_compute; repeat split; discriminate. Qed.

Lemma index_in_range (n : JS.number) (bound : Z) :
  JS.lt n bound = true -> exists p, n = JS.Int p /\ p < bound.
Proof.
  destruct n as [p|]; simpl; intros H; [|discriminate].
  exists p; split; [reflexivity|apply Z.ltb_lt; exact H].
Qed.

Lemma clamped_valid (r : Refs) :
  1 <= pages r -> 1 <= copies r -> clamped r = r.
Proof.
  intros Hp Hc; destruct r; unfold clamped, set_copies, set_pages; simpl in *.
  f_equal; lia.
Qed.

(** C6 (as amended).  The layout computation never fails, for any integer
    [pages] and [copies]: no [NaN] index reaches a sheet that is built, and a
    page index that passes the range check is a number below
    [max (pages, 1)].  That range check is the only place where a value is
    clamped: [sheetsPerCopy], [totalSheets] and [totalSides] are computed
    from the raw [pages] and [copies], so they are the values for the
    clamped settings when [pages >= 1] and [copies >= 1] ([sheetsPerCopy]
    agrees with its clamped value exactly when [pages >= 1]). *)
Theorem clamp_scope (r : Refs) :
  pageCount r = Z.max (pages r) 1
  /\ (forall i n, frontIndex r i = Some n ->
        exists p, n = JS.Int p /\ p < Z.max (pages r) 1)
  /\ (forall i n, backIndex r i = Some n ->
        exists p, n = JS.Int p /\ p < Z.max (pages r) 1)
  /\ (forall i, 0 <= i < Cascade.renderCount r \/ 0 <= i < Grid.renderCount r ->
        exists k, sheetIndex r i = JS.Int k /\ 0 <= k)
  /\ sheetsPerCopy r = (if isDuplex r then (pages r + 1) / 2 else pages r)
  /\ totalSheets r = sheetsPerCopy r * copies r
  /\ totalSides r = pages r * copies r
  /\ (sheetsPerCopy r = sheetsPerCopy (clamped r) <-> 1 <= pages r)
  /\ (1 <= pages r -> 1 <= copies r ->
        clamped r = r
        /\ sheetsPerCopy r = sheetsPerCopy (clamped r)
        /\ totalSheets r = totalSheets (clamped r)
        /\ totalSides r = totalSides (clamped r)).
Proof.
  split; [reflexivity|].
  split; [|split; [|split; [|split; [|split; [|split; [|split]]]]]].
  - intros i n; unfold frontIndex.
    destruct (JS.lt (frontPage r i) (pageCount r)) eqn:E; [|discriminate].
    intros [= <-]; apply index_in_range; exact E.
  - intros i n; unfold backIndex.
    destruct (backPage r i) as [b|]; [|discriminate].
    destruct (JS.lt b (pageCount r)) eqn:E; [|discriminate].
    intros [= <-]; apply index_in_range; exact E.
  - intros i Hi; apply sheetIndex_defined.
    unfold Cascade.renderCount, Grid.renderCount in Hi; lia.
  - unfold sheetsPerCopy; destruct (isDuplex r); [apply ceil_half|reflexivity].
  - reflexivity.
  - reflexivity.
  - apply sheetsPerCopy_clamped_iff.
  - intros Hp Hc; rewrite (clamped_valid r Hp Hc); repeat split.
Qed.

Lemma clamp_scope_witness :
  1 <= pages fiftySheets /\ 1 <= copies fiftySheets
  /\ clamped fiftySheets = fiftySheets
  /\ totalSheets fiftySheets = totalSheets (clamped fiftySheets)
  /\ (0 <= 20 < Cascade.renderCount (set_copies (-3) (set_pages (-7) fiftySheets))
      \/ 0 <= 20 < Grid.renderCount (set_copies (-3) (set_pages (-7) fiftySheets)))
  /\ exists k, sheetIndex (set_copies (-3) (set_pages (-7) fiftySheets)) 20 = JS.Int k
               /\ 0 <= k.
Proof.
  assert (H1 : 1 <= pages fiftySheets) by (simpl; lia).
  assert (H2 : 1 <= copies fiftySheets) by (simpl; lia).
  destruct (clamp_scope fiftySheets) as (_ & _ & _ & _ & _ & _ & _ & _ & A).
  destruct (A H1 H2) as (A1 & _ & A2 & _).
  destruct (clamp_scope (set_copies (-3) (set_pages (-7) fiftySheets)))
    as (_ & _ & _ & B & _).
  split; [exact H1|]; split; [exact H2|]; split; [exact A1|]; split; [exact A2|].
  split; [left; vm_compute; split; congruence|].
  apply B; left; vm_compute; split; congruence.
Defined.

(** ** File intake *)

(** The claim C7 as stated fails: a rejected text file empties the page
    images that were on display. *)
Lemma rejected_load_counterexample :
  String.eqb (type textFile) "application/pdf" = false
  /\ String.prefix "image/" (type textFile) = false
  /\ loadError (loadFile noPdf noPages noImage textFile loadedDoc)
     = Some "Unsupported file format."%string
  /\ pageRenders (loadFile noPdf noPages noImage textFile loadedDoc)
     <> pageRenders loadedDoc.
Proof. vm_compute; repeat split; discriminate. Qed.

(** C7 (as amended).  Loading a file whose MIME type is neither
    [application/pdf] nor [image/*] is rejected with the message
    "Unsupported file format.", whatever the decoders would do.  The
    detected page count and all print settings are left as they were; the
    page images are emptied, the rejected file is recorded as the current
    file, and the loading flag is off again. *)
Theorem rejected_load
        (pdfNumPages : File -> Outcome Z)
        (pdfRenderPages : File -> Z -> Outcome (list PageRender))
        (decodeImage : File -> Outcome PageRender)
        (selected : File) (r : Refs) :
  type selected <> "application/pdf"%string ->
  String.prefix "image/" (type selected) = false ->
  let r' := loadFile pdfNumPages pdfRenderPages decodeImage selected r in
  loadError r' = Some "Unsupported file format."%string
  /\ maxPageCount r' = maxPageCount r
  /\ pages r' = pages r
  /\ copies r' = copies r
  /\ duplex r' = duplex r
  /\ flip r' = flip r
  /\ orientation r' = orientation r
  /\ pageRenders r' = []
  /\ file r' = Some selected
  /\ isLoading r' = false.
Proof.
  intros Hpdf Himg r'; unfold r', loadFile.
  destruct (String.eqb_spec (type selected) "application/pdf") as [E|_];
    [contradiction|].
  rewrite Himg; simpl; repeat split.
Qed.

Lemma rejected_load_witness :
  type textFile <> "application/pdf"%string
  /\ String.prefix "image/" (type textFile) = false
  /\ loadError (loadFile noPdf noPages noImage textFile loadedDoc)
     = Some "Unsupported file format."%string
  /\ pages (loadFile noPdf noPages noImage textFile loadedDoc) = 1
  /\ copies (loadFile noPdf noPages noImage textFile loadedDoc) = 3
  /\ maxPageCount (loadFile noPdf noPages noImage textFile loadedDoc) = Some 1.
Proof.
  assert (H1 : type textFile <> "application/pdf"%string) by discriminate.
  destruct (rejected_load noPdf noPages noImage textFile loadedDoc H1 eq_refl)
    as (A & B & C & D & _).
  split; [exact H1|]; split; [reflexivity|].
  split; [exact A|]; split; [exact C|]; split; [exact D|exact B].
Defined.

(** ** Sheets and the resources they hold *)

Lemma exec_ret {A : Type} (a : A) (w : World) : exec (ret a) w = w.
Proof. reflexivity. Qed.

Lemma eval_ret {A : Type} (a : A) (w : World) : eval (ret a) w = a.
Proof. reflexivity. Qed.

Lemma eval_newPlaneGeometry (gw gh : Q) (w : World) :
  eval (newPlaneGeometry gw gh) w = mkGeometry (next_uid w) gw gh.
Proof. reflexivity. Qed.

Lemma exec_newPlaneGeometry (gw gh : Q) (w : World) :
  exec (newPlaneGeometry gw gh) w
  = mkWorld (stackGroup w) (disposable w) (disposed w) (S (next_uid w)).
Proof. reflexivity. Qed.

Lemma exec_push (x : Resource) (w : World) :
  exec (push x) w
  = mkWorld (stackGroup w) (disposable w ++ [x]) (disposed w) (next_uid w).
Proof. reflexivity. Qed.

Lemma createPageMaterial_tracks (a b : Q) (c : bool) (u : option string)
      (rotation : Q) (w : World) :
  exec (createPageMaterial a b c u rotation) w
  = mkWorld (stackGroup w)
            (disposable w
               ++ materialResources (eval (createPageMaterial a b c u rotation) w))
            (disposed w)
            (next_uid w
               + List.length (materialResources (eval (createPageMaterial a b c u rotation) w))).
Proof.
  unfold createPageMaterial, createTexture, exec, eval, bind, construct, push, ret.
  destruct u as [s|]; [destruct (JS.truthy (Some s))|];
    cbn; rewrite <- ?app_assoc; cbn; f_equal; lia.
Qed.

Lemma createLabelSprite_tracks (ctx2d : bool) (text : string) (w : World) :
  exec (Grid.createLabelSprite ctx2d text) w
  = mkWorld (stackGroup w)
            (disposable w ++ labelResources (eval (Grid.createLabelSprite ctx2d text) w))
            (disposed w)
            (next_uid w
               + List.length (labelResources (eval (Grid.createLabelSprite ctx2d text) w))).
Proof.
  unfold Grid.createLabelSprite, exec, eval, bind, construct, push, ret.
  destruct ctx2d; cbn; rewrite <- ?app_assoc; cbn; [f_equal; lia|].
  rewrite app_nil_r, Nat.add_0_r; destruct w; reflexivity.
Qed.

Lemma labelResources_placed (l : option Sprite) :
  labelResources (option_map Grid.placeLabel l) = labelResources l.
Proof. destruct l; reflexivity. Qed.

Ltac run_sheet :=
  rewrite !exec_bind; step_eval;
  rewrite ?exec_ret, ?eval_ret, ?eval_newPlaneGeometry, ?exec_newPlaneGeometry,
    ?exec_push;
  cbn [geo_uid].

Lemma tracking_cascade (r : Refs) : tracking (Cascade.buildSheet r).
Proof.
  intros i w; unfold Cascade.buildSheet; run_sheet.
  rewrite !createPageMaterial_tracks.
  unfold sheetResources;
    cbn [frontMesh backMesh geometry material label labelResources geo_uid
         stackGroup disposable disposed next_uid].
  rewrite app_nil_r, <- !app_assoc; cbn [app].
  f_equal; cbn [List.length]; rewrite ?length_app; lia.
Qed.

Lemma tracking_grid (ctx2d : bool) (r : Refs) : tracking (Grid.buildSheet ctx2d r).
Proof.
  intros i w; unfold Grid.buildSheet; run_sheet.
  rewrite createLabelSprite_tracks, !createPageMaterial_tracks.
  unfold sheetResources;
    cbn [frontMesh backMesh geometry material label geo_uid
         stackGroup disposable disposed next_uid].
  rewrite labelResources_placed, <- !app_assoc; cbn [app].
  f_equal; cbn [List.length]; rewrite ?length_app; lia.
Qed.


Lemma eraseMaterial_createPageMaterial (a b : Q) (c : bool) (u : option string)
      (rotation : Q) (w w' : World) :
  eraseMaterial (eval (createPageMaterial a b c u rotation) w)
  = eraseMaterial (eval (createPageMaterial a b c u rotation) w').
Proof.
  unfold createPageMaterial, createTexture, eval, bind, construct, push, ret.
  destruct u as [s|]; [destruct (JS.truthy (Some s))|]; reflexivity.
Qed.

Lemma eraseSprite_createLabelSprite (ctx2d : bool) (text : string) (w w' : World) :
  option_map eraseSprite (option_map Grid.placeLabel (eval (Grid.createLabelSprite ctx2d text) w))
  = option_map eraseSprite (option_map Grid.placeLabel (eval (Grid.createLabelSprite ctx2d text) w')).
Proof. destruct ctx2d; reflexivity. Qed.

Ltac run_eval :=
  step_eval; rewrite ?eval_ret, ?eval_newPlaneGeometry;
  unfold eraseIds, eraseMesh;
  cbn [frontMesh backMesh geometry material label position rotation_x
       geo_width geo_height mesh_rotation_y mesh_position_z].

(** What a sheet looks like does not depend on the world it is built in. *)
Lemma erase_cascade (r : Refs) (i : Z) (w w' : World) :
  eraseIds (eval (Cascade.buildSheet r i) w)
  = eraseIds (eval (Cascade.buildSheet r i) w').
Proof.
  unfold Cascade.buildSheet; run_eval.
  f_equal; f_equal; apply eraseMaterial_createPageMaterial.
Qed.

Lemma erase_grid (ctx2d : bool) (r : Refs) (i : Z) (w w' : World) :
  eraseIds (eval (Grid.buildSheet ctx2d r i) w)
  = eraseIds (eval (Grid.buildSheet ctx2d r i) w').
Proof.
  unfold Grid.buildSheet; run_eval.
  f_equal; [f_equal; apply eraseMaterial_createPageMaterial
           |f_equal; apply eraseMaterial_createPageMaterial
           |apply eraseSprite_createLabelSprite].
Qed.

(** ** The stack group and [disposable] move together *)

Lemma forRange_tracks (mk : Z -> M SheetGroup) :
  tracking mk ->
  forall count start w ch,
    stackGroup w = Some ch ->
    exists gs,
      exec (forRange count start (fun i => g <- mk i ;; addToStack g)) w
      = mkWorld (Some (ch ++ gs))
                (disposable w ++ flat_map sheetResources gs)
                (disposed w)
                (next_uid w + List.length (flat_map sheetResources gs))
      /\ List.length gs = count.
Proof.
  intros Hmk count; induction count as [|count IH]; intros start w ch Hw.
  - exists []; split; [|reflexivity].
    unfold exec, ret; cbn [forRange snd flat_map List.length].
    rewrite !app_nil_r, Nat.add_0_r, <- Hw; destruct w; reflexivity.
  - set (g := eval (mk start) w).
    set (w1 := mkWorld (Some (ch ++ [g])) (disposable w ++ sheetResources g)
                       (disposed w) (next_uid w + List.length (sheetResources g))).
    assert (Hstep : exec (g0 <- mk start ;; addToStack g0) w = w1).
    { rewrite exec_bind, Hmk; unfold exec, addToStack; simpl; rewrite Hw; reflexivity. }
    destruct (IH (start + 1) w1 (ch ++ [g]) eq_refl) as (gs & E & L).
    exists (g :: gs); split; [|simpl; rewrite L; reflexivity].
    cbn [forRange]; rewrite exec_bind, Hstep, E.
    unfold w1; cbn [stackGroup disposable disposed next_uid flat_map].
    rewrite <- !app_assoc, length_app, Nat.add_assoc; reflexivity.
Qed.

Lemma rebuild_tracks (n : Z) (mk : Z -> M SheetGroup) (w : World) (ch : list SheetGroup) :
  tracking mk ->
  stackGroup w = Some ch ->
  exists gs,
    exec (rebuild n mk) w
    = mkWorld (Some gs) (flat_map sheetResources gs) (disposed w ++ disposable w)
              (next_uid w + List.length (flat_map sheetResources gs))
    /\ List.length gs = Z.to_nat n.
Proof.
  intros Hmk Hw.
  set (w0 := mkWorld (Some []) [] (disposed w ++ disposable w) (next_uid w)).
  assert (E0 : exec (rebuild n mk) w
               = exec (forLoop n (fun i => g <- mk i ;; addToStack g)) w0).
  { unfold rebuild, exec at 1; rewrite Hw.
    change (snd (bind disposeStack
                   (fun _ => forLoop n (fun i => g <- mk i ;; addToStack g)) w))
      with (exec (bind disposeStack
                   (fun _ => forLoop n (fun i => g <- mk i ;; addToStack g))) w).
    rewrite exec_bind; f_equal.
    unfold exec, disposeStack; rewrite Hw; simpl.
    rewrite popAll_enough by lia; reflexivity. }
  destruct (forRange_tracks mk Hmk (Z.to_nat n) 0 w0 [] eq_refl) as (gs & E & L).
  exists gs; rewrite E0; unfold forLoop; rewrite E; split; [reflexivity|exact L].
Qed.

Lemma tracked_rebuild (n : Z) (mk : Z -> M SheetGroup) (w : World) :
  tracking mk -> tracked w -> tracked (exec (rebuild n mk) w).
Proof.
  intros Hmk Hw; destruct (stackGroup w) as [ch|] eqn:E.
  - destruct (rebuild_tracks n mk w ch Hmk E) as (gs & -> & _); reflexivity.
  - rewrite rebuild_unmounted by assumption; exact Hw.
Qed.

Lemma tracked_initScene (previewRef : bool) :
  tracked (exec (Cascade.initScene previewRef) emptyWorld)
  /\ tracked (exec (Grid.initScene previewRef) emptyWorld).
Proof. destruct previewRef; split; reflexivity. Qed.

Lemma tracked_cascadeSession (previewRef : bool) (inputs : list Refs) :
  tracked (cascadeSession previewRef inputs).
Proof.
  unfold cascadeSession.
  generalize (proj1 (tracked_initScene previewRef)).
  generalize (exec (Cascade.initScene previewRef) emptyWorld).
  induction inputs as [|r inputs IH]; intros w Hw; simpl; [exact Hw|].
  apply IH; rewrite cascade_buildStack_rebuild.
  apply tracked_rebuild; [apply tracking_cascade|exact Hw].
Qed.

Lemma tracked_gridSession (previewRef : bool) (inputs : list (bool * Refs)) :
  tracked (gridSession previewRef inputs).
Proof.
  unfold gridSession.
  generalize (proj2 (tracked_initScene previewRef)).
  generalize (exec (Grid.initScene previewRef) emptyWorld).
  induction inputs as [|[c r] inputs IH]; intros w Hw; simpl; [exact Hw|].
  apply IH; rewrite grid_buildStack_rebuild.
  apply tracked_rebuild; [apply tracking_grid|exact Hw].
Qed.

(** X1.  At every point of a session, in either variant, [disposable] holds
    exactly the resources of the sheets that are in the stack group, sheet
    by sheet in the order geometry, front texture, front material, back
    texture, back material, label texture, label material: nothing that is
    on display is missing from it and nothing else is in it. *)
Theorem disposable_is_scene (previewRef : bool) (inputs : list Refs)
        (ginputs : list (bool * Refs)) :
  disposable (cascadeSession previewRef inputs)
  = flat_map sheetResources (children (cascadeSession previewRef inputs))
  /\ disposable (gridSession previewRef ginputs)
     = flat_map sheetResources (children (gridSession previewRef ginputs)).
Proof.
  split; [apply tracked_cascadeSession|apply tracked_gridSession].
Qed.

(** X2.  No sheet on display uses a disposed resource: in every session
    world, a resource held by a sheet of the stack group has never been
    disposed, and it was constructed (its id is below the id counter). *)
Theorem no_use_after_dispose (previewRef : bool) (inputs : list Refs)
        (ginputs : list (bool * Refs)) :
  (forall g x, In g (children (cascadeSession previewRef inputs)) ->
               In x (sheetResources g) ->
               releases (cascadeSession previewRef inputs) (uid_of x) = 0%nat
               /\ (uid_of x < next_uid (cascadeSession previewRef inputs))%nat)
  /\ (forall g x, In g (children (gridSession previewRef ginputs)) ->
                  In x (sheetResources g) ->
                  releases (gridSession previewRef ginputs) (uid_of x) = 0%nat
                  /\ (uid_of x < next_uid (gridSession previewRef ginputs))%nat).
Proof.
  assert (K : forall w, ledger w -> tracked w ->
                forall g x, In g (children w) -> In x (sheetResources g) ->
                            releases w (uid_of x) = 0%nat /\ (uid_of x < next_uid w)%nat).
  { intros w [P _] T g x Hg Hx.
    assert (Hd : In x (disposable w)).
    { rewrite T; apply in_flat_map; exists g; split; assumption. }
    assert (Hu : In (uid_of x) (List.map uid_of (disposable w))) by (apply in_map; exact Hd).
    pose proof (proj1 (Permutation_count_occ Nat.eq_dec _ _) P (uid_of x)) as C.
    rewrite map_app, count_occ_app, count_occ_seq in C.
    pose proof (proj1 (count_occ_In Nat.eq_dec _ _) Hu) as Hpos.
    unfold releases.
    destruct (Nat.ltb_spec (uid_of x) (next_uid w)); split; lia. }
  split; intros g x.
  - apply K; [apply ledger_cascadeSession|apply tracked_cascadeSession].
  - apply K; [apply ledger_gridSession|apply tracked_gridSession].
Qed.

(** ** Induction over sessions *)

Lemma cascadeSession_ind (P : World -> Prop) (previewRef : bool) (inputs : list Refs) :
  P (exec (Cascade.initScene previewRef) emptyWorld) ->
  (forall w r, P w -> P (exec (Cascade.buildStack r) w)) ->
  P (cascadeSession previewRef inputs).
Proof.
  intros H0 Hstep; unfold cascadeSession.
  revert H0; generalize (exec (Cascade.initScene previewRef) emptyWorld).
  induction inputs as [|r inputs IH]; intros w Hw; simpl; [exact Hw|].
  apply IH, Hstep, Hw.
Qed.

Lemma gridSession_ind (P : World -> Prop) (previewRef : bool)
      (inputs : list (bool * Refs)) :
  P (exec (Grid.initScene previewRef) emptyWorld) ->
  (forall w c r, P w -> P (exec (Grid.buildStack c r) w)) ->
  P (gridSession previewRef inputs).
Proof.
  intros H0 Hstep; unfold gridSession.
  revert H0; generalize (exec (Grid.initScene previewRef) emptyWorld).
  induction inputs as [|[c r] inputs IH]; intros w Hw; simpl; [exact Hw|].
  apply IH, Hstep, Hw.
Qed.

(** ** How many resources a stack holds *)

Lemma materialResources_length (m : Material) :
  (1 <= List.length (materialResources m) <= 2)%nat.
Proof.
  unfold materialResources; rewrite length_app.
  destruct (map m); simpl; lia.
Qed.

Lemma sheetResources_length (g : SheetGroup) :
  (3 <= List.length (sheetResources g) <= 7)%nat
  /\ (label g = None -> (List.length (sheetResources g) <= 5)%nat).
Proof.
  unfold sheetResources; cbn [List.length]; rewrite !length_app.
  pose proof (materialResources_length (material (frontMesh g))).
  pose proof (materialResources_length (material (backMesh g))).
  split; [destruct (label g); simpl; lia|].
  intros ->; simpl; lia.
Qed.

Lemma flat_map_length_bounds {A B : Type} (f : A -> list B) (lo hi : nat) (l : list A) :
  (forall a, In a l -> (lo <= List.length (f a) <= hi)%nat) ->
  (lo * List.length l <= List.length (flat_map f l) <= hi * List.length l)%nat.
Proof.
  induction l as [|a l IH]; intros H; simpl; [lia|].
  rewrite length_app.
  pose proof (H a (or_introl eq_refl)).
  pose proof (IH (fun b Hb => H b (or_intror Hb))).
  lia.
Qed.

Lemma cascade_sheet_unlabelled (r : Refs) (i : Z) (w : World) :
  label (eval (Cascade.buildSheet r i) w) = None.
Proof. unfold Cascade.buildSheet; step_eval; reflexivity. Qed.

Lemma cascade_scene_shape (previewRef : bool) (inputs : list Refs) :
  (List.length (children (cascadeSession previewRef inputs)) <= 24)%nat
  /\ forall g, In g (children (cascadeSession previewRef inputs)) -> label g = None.
Proof.
  apply cascadeSession_ind.
  - destruct previewRef; simpl; split; try lia; intros g [].
  - intros w r [L N]; rewrite cascade_buildStack_rebuild.
    destruct (stackGroup w) as [ch|] eqn:E.
    + split.
      * rewrite (built_count _ _ w ch (allocating_cascade_buildSheet r) E).
        unfold Cascade.renderCount, Cascade.maxRenderedSheets; lia.
      * intros g Hg.
        destruct (built_sheet_inv _ _ w g (allocating_cascade_buildSheet r) Hg)
          as (i & w' & _ & ->).
        apply cascade_sheet_unlabelled.
    + rewrite rebuild_unmounted by assumption; split; assumption.
Qed.

Lemma grid_scene_shape (previewRef : bool) (inputs : list (bool * Refs)) :
  (List.length (children (gridSession previewRef inputs)) <= 100)%nat.
Proof.
  apply gridSession_ind.
  - destruct previewRef; simpl; lia.
  - intros w c r L; rewrite grid_buildStack_rebuild.
    destruct (stackGroup w) as [ch|] eqn:E.
    + rewrite (built_count _ _ w ch (allocating_grid_buildSheet c r) E).
      unfold Grid.renderCount, Grid.maxRenderedSheets; lia.
    + rewrite rebuild_unmounted by assumption; exact L.
Qed.

(** X3.  The resources alive at any point of a session are bounded by the
    render cap, however many pages and copies are asked for: a cascade stack
    never shows more than 24 sheets and holds between 3 and 5 resources per
    sheet, at most 120; a grid never shows more than 100 sheets and holds
    between 3 and 7 resources per sheet, at most 700. *)
Theorem live_resources_bounded (previewRef : bool) (inputs : list Refs)
        (ginputs : list (bool * Refs)) :
  (let w := cascadeSession previewRef inputs in
   let n := List.length (children w) in
   (n <= 24 /\ 3 * n <= List.length (disposable w) <= 5 * n
    /\ List.length (disposable w) <= 120)%nat)
  /\ (let w := gridSession previewRef ginputs in
      let n := List.length (children w) in
      (n <= 100 /\ 3 * n <= List.length (disposable w) <= 7 * n
       /\ List.length (disposable w) <= 700)%nat).
Proof.
  split; intros w n.
  - destruct (cascade_scene_shape previewRef inputs) as [L N].
    assert (B : (3 * n <= List.length (disposable w) <= 5 * n)%nat).
    { unfold w, n; rewrite (tracked_cascadeSession previewRef inputs).
      apply flat_map_length_bounds; intros g Hg.
      destruct (sheetResources_length g) as [[A _] C].
      split; [exact A|exact (C (N g Hg))]. }
    fold w in L; fold n in L; lia.
  - pose proof (grid_scene_shape previewRef ginputs) as L.
    assert (B : (3 * n <= List.length (disposable w) <= 7 * n)%nat).
    { unfold w, n; rewrite (tracked_gridSession previewRef ginputs).
      apply flat_map_length_bounds; intros g Hg.
      exact (proj1 (sheetResources_length g)). }
    fold w in L; fold n in L; lia.
Qed.

(** ** The picture does not depend on the world *)

Lemma rebuild_look (n : Z) (mk : Z -> M SheetGroup) (w w' : World)
      (ch ch' : list SheetGroup) :
  (forall i, allocating (mk i)) ->
  (forall i v v', eraseIds (eval (mk i) v) = eraseIds (eval (mk i) v')) ->
  stackGroup w = Some ch -> stackGroup w' = Some ch' ->
  List.map eraseIds (children (exec (rebuild n mk) w))
  = List.map eraseIds (children (exec (rebuild n mk) w')).
Proof.
  intros Hmk He Hw Hw'.
  destruct (rebuild_spec n mk Hmk w ch Hw) as (gs & f & E & _ & L & N).
  destruct (rebuild_spec n mk Hmk w' ch' Hw') as (gs' & f' & E' & _ & L' & N').
  rewrite E, E'; unfold children; cbn [stackGroup].
  apply nth_error_ext; intros k; rewrite !nth_error_map.
  destruct (Nat.lt_ge_cases k (Z.to_nat n)) as [Hk|Hk].
  - destruct (N k Hk) as (v & ->); destruct (N' k Hk) as (v' & ->).
    simpl; f_equal; apply He.
  - rewrite (proj2 (nth_error_None gs k)), (proj2 (nth_error_None gs' k)) by lia.
    reflexivity.
Qed.

Lemma rebuild_mounted (n : Z) (mk : Z -> M SheetGroup) (w : World) (ch : list SheetGroup) :
  (forall i, allocating (mk i)) ->
  stackGroup w = Some ch ->
  exists gs, stackGroup (exec (rebuild n mk) w) = Some gs.
Proof.
  intros Hmk Hw.
  destruct (rebuild_spec n mk Hmk w ch Hw) as (gs & f & E & _).
  exists gs; rewrite E; reflexivity.
Qed.

(** X4.  Rebuilding is idempotent up to the identity of the resources: in
    either variant, running [buildStack] a second time with the same
    settings leaves sheets with the same geometry, materials, textures,
    rotations, positions and labels as the first run; more generally the
    sheets built in two mounted worlds differ in nothing but the ids of
    their resources, so no hidden state reaches the picture. *)
Theorem rebuild_idempotent (ctx2d : bool) (r : Refs) (w : World) :
  List.map eraseIds (children (exec (Cascade.buildStack r) (exec (Cascade.buildStack r) w)))
  = List.map eraseIds (children (exec (Cascade.buildStack r) w))
  /\ List.map eraseIds
       (children (exec (Grid.buildStack ctx2d r) (exec (Grid.buildStack ctx2d r) w)))
     = List.map eraseIds (children (exec (Grid.buildStack ctx2d r) w))
  /\ (forall w' ch ch',
        stackGroup w = Some ch -> stackGroup w' = Some ch' ->
        List.map eraseIds (children (exec (Cascade.buildStack r) w))
        = List.map eraseIds (children (exec (Cascade.buildStack r) w'))
        /\ List.map eraseIds (children (exec (Grid.buildStack ctx2d r) w))
           = List.map eraseIds (children (exec (Grid.buildStack ctx2d r) w'))).
Proof.
  rewrite !cascade_buildStack_rebuild, !grid_buildStack_rebuild.
  pose proof (allocating_cascade_buildSheet r) as Ac.
  pose proof (allocating_grid_buildSheet ctx2d r) as Ag.
  split; [|split].
  - destruct (stackGroup w) as [ch|] eqn:E.
    + destruct (rebuild_mounted (Cascade.renderCount r) _ w ch Ac E) as (gs & Hgs).
      apply (rebuild_look _ _ _ w gs ch Ac (erase_cascade r) Hgs E).
    + rewrite !(rebuild_unmounted _ _ w E); reflexivity.
  - destruct (stackGroup w) as [ch|] eqn:E.
    + destruct (rebuild_mounted (Grid.renderCount r) _ w ch Ag E) as (gs & Hgs).
      apply (rebuild_look _ _ _ w gs ch Ag (erase_grid ctx2d r) Hgs E).
    + rewrite !(rebuild_unmounted _ _ w E); reflexivity.
  - intros w' ch ch' Hw Hw'; split.
    + apply (rebuild_look _ _ w w' ch ch' Ac (erase_cascade r) Hw Hw').
    + apply (rebuild_look _ _ w w' ch ch' Ag (erase_grid ctx2d r) Hw Hw').
Qed.

(** ** Teardown *)

(** X5.  [disposeStack] empties the stack group and [disposable], moves
    every waiting resource to the dispose log and constructs nothing; a
    second call changes nothing at all, so tearing down twice disposes of
    nothing twice. *)
Theorem disposeStack_idempotent (w : World) :
  children (exec disposeStack w) = []
  /\ disposable (exec disposeStack w) = []
  /\ disposed (exec disposeStack w) = disposed w ++ disposable w
  /\ next_uid (exec disposeStack w) = next_uid w
  /\ (stackGroup (exec disposeStack w) = None <-> stackGroup w = None)
  /\ exec disposeStack (exec disposeStack w) = exec disposeStack w.
Proof.
  unfold exec, disposeStack, children.
  destruct (stackGroup w) as [ch|]; cbn [snd stackGroup disposable disposed next_uid].
  - rewrite popAll_enough by lia; cbn [List.length popAll].
    rewrite app_nil_r; repeat split; discriminate.
  - rewrite app_nil_r; repeat split.
Qed.

(** ** Pages and sheets *)

Lemma sheetIndex_small (r : Refs) (k : Z) :
  0 <= k < sheetsPerCopy r -> sheetIndex r k = JS.Int k.
Proof.
  intros Hk; rewrite sheetIndex_mod by lia.
  rewrite Z.mod_small by lia; reflexivity.
Qed.

(** X6.  The duplex pairing loses no page and prints none twice: for valid
    settings every page index below the page count is carried by exactly one
    sheet of a copy, on exactly one of its two sides (page [p] on sheet
    [p / 2], front if [p] is even and back if it is odd, in duplex mode;
    on the front of sheet [p] in simplex mode). *)
Theorem every_page_once (r : Refs) (p : Z) :
  1 <= pages r ->
  0 <= p < pages r ->
  exists k,
    0 <= k < sheetsPerCopy r
    /\ k = (if isDuplex r then p / 2 else p)
    /\ (frontPage r k = JS.Int p \/ backPage r k = Some (JS.Int p))
    /\ ~ (frontPage r k = JS.Int p /\ backPage r k = Some (JS.Int p))
    /\ forall k', 0 <= k' < sheetsPerCopy r ->
                  frontPage r k' = JS.Int p \/ backPage r k' = Some (JS.Int p) ->
                  k' = k.
Proof.
  intros Hp Hr.
  pose proof (Z.div_mod p 2 ltac:(lia)) as D.
  pose proof (Z.mod_pos_bound p 2 ltac:(lia)) as B.
  destruct (duplex r) eqn:Hd.
  - (* simplex *)
    pose proof (sheetsPerCopy_simplex r Hd) as Hs.
    pose proof (isDuplex_false r Hd) as Hi.
    exists p; rewrite Hi; unfold frontPage, backPage; rewrite Hi.
    rewrite (sheetIndex_small r p) by lia.
    split; [lia|]; split; [reflexivity|]; split; [left; reflexivity|].
    split; [intros [_ C]; discriminate|].
    intros k' Hk' [C|C]; [|discriminate].
    rewrite (sheetIndex_small r k' Hk') in C; congruence.
  - (* duplex *)
    pose proof (sheetsPerCopy_duplex r Hd) as Hs.
    pose proof (isDuplex_true r Hd) as Hi.
    pose proof (Z.div_mod (pages r + 1) 2 ltac:(lia)) as D'.
    pose proof (Z.mod_pos_bound (pages r + 1) 2 ltac:(lia)) as B'.
    assert (Hk : 0 <= p / 2 < sheetsPerCopy r) by lia.
    exists (p / 2); rewrite Hi; unfold frontPage, backPage; rewrite Hi.
    rewrite (sheetIndex_small r (p / 2) Hk); simpl.
    split; [exact Hk|]; split; [reflexivity|]; split; [|split].
    + destruct (Z.eq_dec (p mod 2) 0);
        [left|right]; do 2 f_equal; lia.
    + intros [C1 C2]; injection C1; injection C2; lia.
    + intros k' Hk' C; rewrite (sheetIndex_small r k' Hk') in C; simpl in C.
      destruct C as [C|C]; injection C; lia.
Qed.

Lemma every_page_once_witness :
  1 <= pages sevenPagesDuplex /\ 0 <= 6 < pages sevenPagesDuplex
  /\ exists k, k = 3 /\ frontPage sevenPagesDuplex k = JS.Int 6.
Proof.
  assert (H1 : 1 <= pages sevenPagesDuplex) by (simpl; lia).
  assert (H2 : 0 <= 6 < pages sevenPagesDuplex) by (simpl; lia).
  destruct (every_page_once sevenPagesDuplex 6 H1 H2) as (k & _ & Hk & _).
  split; [exact H1|]; split; [exact H2|].
  exists k; split; [exact Hk|rewrite Hk; reflexivity].
Defined.

Lemma sheetIndex_period (r : Refs) (i : Z) :
  1 <= pages r -> 0 <= i ->
  sheetIndex r (i + sheetsPerCopy r) = sheetIndex r i.
Proof.
  intros Hp Hi; pose proof (sheetsPerCopy_pos r Hp) as Hs.
  rewrite !sheetIndex_mod by lia.
  rewrite <- (Z.mul_1_l (sheetsPerCopy r)) at 1.
  rewrite Z.mod_add by lia; reflexivity.
Qed.

(** X7.  Every copy is the same: for valid settings the sheet
    [sheetsPerCopy] places after sheet [i] carries the same front and back
    page, hence the same urls, and the faces built for the two sheets show
    the same textures in both variants. *)
Theorem copies_repeat (r : Refs) (i : Z) :
  1 <= pages r -> 0 <= i ->
  let j := i + sheetsPerCopy r in
  frontPage r j = frontPage r i
  /\ backPage r j = backPage r i
  /\ frontUrl r j = frontUrl r i
  /\ backUrl r j = backUrl r i
  /\ forall w w' ctx2d,
       frontFace (eval (Cascade.buildSheet r j) w)
       = frontFace (eval (Cascade.buildSheet r i) w')
       /\ backFace (eval (Cascade.buildSheet r j) w)
          = backFace (eval (Cascade.buildSheet r i) w')
       /\ frontFace (eval (Grid.buildSheet ctx2d r j) w)
          = frontFace (eval (Grid.buildSheet ctx2d r i) w')
       /\ backFace (eval (Grid.buildSheet ctx2d r j) w)
          = backFace (eval (Grid.buildSheet ctx2d r i) w').
Proof.
  intros Hp Hi j.
  pose proof (sheetIndex_period r i Hp Hi) as E; fold j in E.
  assert (F : frontPage r j = frontPage r i) by (unfold frontPage; rewrite E; reflexivity).
  assert (B : backPage r j = backPage r i) by (unfold backPage; rewrite E; reflexivity).
  assert (FU : frontUrl r j = frontUrl r i)
    by (unfold frontUrl, frontIndex; rewrite F; reflexivity).
  assert (BU : backUrl r j = backUrl r i)
    by (unfold backUrl, backIndex; rewrite B; reflexivity).
  repeat (split; [assumption|]).
  intros w w' ctx2d.
  destruct (cascade_faces r j w) as [-> ->], (cascade_faces r i w') as [-> ->].
  destruct (grid_faces ctx2d r j w) as [-> ->], (grid_faces ctx2d r i w') as [-> ->].
  rewrite FU, BU; repeat split.
Qed.

Lemma copies_repeat_witness :
  1 <= pages fiftySheets /\ 0 <= 2
  /\ frontPage fiftySheets 7 = frontPage fiftySheets 2
  /\ frontPage fiftySheets 7 = JS.Int 2.
Proof.
  assert (H1 : 1 <= pages fiftySheets) by (simpl; lia).
  assert (H2 : 0 <= 2) by lia.
  destruct (copies_repeat fiftySheets 2 H1 H2) as (A & _).
  split; [exact H1|]; split; [exact H2|]; split; [exact A|reflexivity].
Defined.

(** X8.  A page that exists is shown: when the page index of a face is
    below the page count and [pageRenders] holds a page with a non-empty url
    at that index, the face built for it carries a texture loaded from that
    url -- unrotated on a cascade front, turned by the orientation rotation
    on a grid front, and turned by the variant's back rotation on a back
    face. *)
Theorem existing_page_shown (r : Refs) (i p : Z) (page : PageRender) :
  0 <= p < pageCount r ->
  nth_error (pageRenders r) (Z.to_nat p) = Some page ->
  url page <> EmptyString ->
  (frontPage r i = JS.Int p ->
     frontUrl r i = Some (url page)
     /\ forall w ctx2d,
          frontFace (eval (Cascade.buildSheet r i) w) = Some (FromUrl (url page), 0%Q)
          /\ frontFace (eval (Grid.buildSheet ctx2d r i) w)
             = Some (FromUrl (url page), Grid.orientationRotation r))
  /\ (backPage r i = Some (JS.Int p) ->
        backUrl r i = Some (url page)
        /\ forall w ctx2d,
             backFace (eval (Cascade.buildSheet r i) w)
             = Some (FromUrl (url page), Cascade.backRotation r)
             /\ backFace (eval (Grid.buildSheet ctx2d r i) w)
                = Some (FromUrl (url page), Grid.backRotation r)).
Proof.
  intros Hp Hn Hu.
  assert (L : JS.lt (JS.Int p) (pageCount r) = true) by (apply Z.ltb_lt; lia).
  assert (I : JS.index (pageRenders r) (JS.Int p) = Some page).
  { unfold JS.index; destruct (Z.ltb_spec p 0); [lia|exact Hn]. }
  assert (T : forall rot, faceOf (Some (url page)) rot = Some (FromUrl (url page), rot)).
  { intros rot; unfold faceOf, JS.truthy.
    destruct (String.eqb_spec (url page) EmptyString); [contradiction|reflexivity]. }
  split; intros H.
  - assert (U : frontUrl r i = Some (url page)).
    { unfold frontUrl, frontIndex; rewrite H, L; unfold urlAt; rewrite I; reflexivity. }
    split; [exact U|]; intros w ctx2d.
    destruct (cascade_faces r i w) as [-> _], (grid_faces ctx2d r i w) as [-> _].
    rewrite U, !T; split; reflexivity.
  - assert (U : backUrl r i = Some (url page)).
    { unfold backUrl, backIndex; rewrite H, L; unfold urlAt; rewrite I; reflexivity. }
    split; [exact U|]; intros w ctx2d.
    destruct (cascade_faces r i w) as [_ ->], (grid_faces ctx2d r i w) as [_ ->].
    rewrite U, !T; split; reflexivity.
Qed.

Lemma existing_page_shown_witness :
  0 <= 0 < pageCount onePage
  /\ nth_error (pageRenders onePage) (Z.to_nat 0) = Some (mkPageRender "page1" 600 800)
  /\ frontFace (eval (Cascade.buildSheet onePage 0) mountedWorld)
     = Some (FromUrl "page1", 0%Q).
Proof.
  assert (H1 : 0 <= 0 < pageCount onePage) by (vm_compute; split; congruence).
  destruct (existing_page_shown onePage 0 0 (mkPageRender "page1" 600 800) H1 eq_refl
              ltac:(discriminate)) as [A _].
  destruct (A eq_refl) as [_ B].
  split; [exact H1|]; split; [reflexivity|exact (proj1 (B mountedWorld true))].
Defined.

(** X9.  Paper used in duplex mode: twice the sheets exceed the sides by
    one blank side per copy when the page count is odd and by nothing when
    it is even, for every integer page count; for valid settings duplex
    never needs more sheets than simplex. *)
Theorem duplex_blank_sides (r : Refs) :
  duplex r = Duplex ->
  2 * totalSheets r - totalSides r = (pages r mod 2) * copies r
  /\ (1 <= pages r -> 1 <= copies r ->
        totalSheets r <= totalSides r /\ totalSides r <= 2 * totalSheets r).
Proof.
  intros Hd; unfold totalSheets, totalSides; rewrite (sheetsPerCopy_duplex r Hd).
  pose proof (Z.div_mod (pages r) 2 ltac:(lia)) as D.
  pose proof (Z.mod_pos_bound (pages r) 2 ltac:(lia)) as B.
  pose proof (Z.div_mod (pages r + 1) 2 ltac:(lia)) as D'.
  pose proof (Z.mod_pos_bound (pages r + 1) 2 ltac:(lia)) as B'.
  assert (E : 2 * ((pages r + 1) / 2) - pages r = pages r mod 2) by lia.
  split; [nia|].
  intros Hp Hc; split; nia.
Qed.

Lemma duplex_blank_sides_witness :
  duplex sevenPagesDuplex = Duplex
  /\ 2 * totalSheets sevenPagesDuplex - totalSides sevenPagesDuplex = 1.
Proof.
  destruct (duplex_blank_sides sevenPagesDuplex eq_refl) as [A _].
  split; [reflexivity|exact A].
Defined.

(** X10.  The two numbers in the preview header always add up: for every
    integer sheet total and every cap, [renderedSheets + hiddenSheets] is
    [totalSheets], [hiddenSheets] is never negative, and the "more sheets"
    notice (shown when [hiddenSheets > 0]) appears exactly when the total
    exceeds the cap. *)
Theorem display_counts (cap : Z) (r : Refs) :
  renderedSheets cap r + hiddenSheets cap r = totalSheets r
  /\ 0 <= hiddenSheets cap r
  /\ renderedSheets cap r <= cap
  /\ (0 < hiddenSheets cap r <-> cap < totalSheets r).
Proof. unfold hiddenSheets, renderedSheets; lia. Qed.

(** ** The grid, cell by cell *)

(** X11.  Every sheet of the grid has a cell of its own inside the grid:
    for [0 <= i < renderCount] the column lies in [[0, columns)], the row in
    [[0, rows)], and [i = row * columns + col], so two different sheets never
    share a cell. *)
Theorem grid_cells (r : Refs) (i : Z) :
  0 <= i < Grid.renderCount r ->
  0 <= Grid.col r i < Grid.columns r
  /\ 0 <= Grid.row r i < Grid.rows r
  /\ i = Grid.row r i * Grid.columns r + Grid.col r i
  /\ forall j, 0 <= j < Grid.renderCount r ->
               Grid.col r j = Grid.col r i -> Grid.row r j = Grid.row r i -> j = i.
Proof.
  assert (K : forall k, 0 <= k < Grid.renderCount r ->
                0 <= Grid.col r k < Grid.columns r
                /\ 0 <= Grid.row r k < Grid.rows r
                /\ k = Grid.row r k * Grid.columns r + Grid.col r k).
  { intros k Hk; pose proof (columns_range r) as Hc.
    destruct (col_mod r k ltac:(lia)) as [-> _].
    unfold Grid.row; rewrite floor_quotient.
    pose proof (rows_ceil r) as Hr.
    pose proof (Z.div_mod k (Grid.columns r) ltac:(lia)) as D.
    pose proof (Z.mod_pos_bound k (Grid.columns r) ltac:(lia)) as B.
    assert (0 <= k / Grid.columns r) by (apply Z.div_pos; lia).
    repeat split; try lia; nia. }
  intros Hi; destruct (K i Hi) as (A & B & C).
  repeat split; try lia.
  intros j Hj Ec Er; destruct (K j Hj) as (_ & _ & C').
  rewrite C', C, Ec, Er; reflexivity.
Qed.

Lemma grid_cells_witness :
  0 <= 11 < Grid.renderCount twelveSheets
  /\ 11 = Grid.row twelveSheets 11 * Grid.columns twelveSheets + Grid.col twelveSheets 11.
Proof.
  assert (H : 0 <= 11 < Grid.renderCount twelveSheets) by (vm_compute; split; congruence).
  destruct (grid_cells twelveSheets 11 H) as (_ & _ & A & _).
  split; [exact H|exact A].
Defined.

Lemma aspect_cases (a : Q) :
  (0 < a)%Q ->
  (1 <= JS.max a (1 / a) /\ JS.min a (1 / a) <= 1
   /\ JS.max a (1 / a) * JS.min a (1 / a) == 1
   /\ (1 <= a -> JS.max a (1 / a) == a /\ JS.min a (1 / a) == 1 / a)
   /\ (~ 1 <= a -> JS.max a (1 / a) == 1 / a /\ JS.min a (1 / a) == a))%Q.
Proof.
  intros Ha.
  assert (Hb : (0 < 1 / a)%Q)
    by (unfold Qdiv; rewrite Qmult_1_l; apply Qinv_lt_0_compat; exact Ha).
  assert (Hab : (a * (1 / a) == 1)%Q) by (field; lra).
  set (b := (1 / a)%Q) in *.
  unfold JS.max, JS.min.
  destruct (Qle_bool a b) eqn:E.
  - apply Qle_bool_iff in E.
    assert (a <= 1)%Q by nra.
    assert (1 <= b)%Q by nra.
    repeat split; try lra; try nra.
  - assert (N : ~ (a <= b)%Q) by (intros C; apply Qle_bool_iff in C; congruence).
    assert (b < a)%Q by lra.
    assert (1 <= a)%Q by nra.
    assert (b <= 1)%Q by nra.
    repeat split; try lra; try nra.
Qed.

Lemma aspect_pos (r : Refs) :
  (0 < width (base r))%Q -> (0 < height (base r))%Q -> (0 < Grid.aspect r)%Q.
Proof.
  intros Hw Hh; unfold Grid.aspect, Qdiv.
  apply Qmult_lt_0_compat; [exact Hw|apply Qinv_lt_0_compat; exact Hh].
Qed.

(** X12.  Orientation reinterprets the page, it does not crop it: for a
    first page of positive width and height the plane is at least as wide
    as high in landscape and at most as wide as high in portrait, its width
    is positive, and the plane aspects of the two orientations of the same
    document are reciprocal. *)
Theorem orientation_shapes_plane (r : Refs) :
  (0 < width (base r))%Q -> (0 < height (base r))%Q ->
  (orientation r = Landscape ->
     (1 <= Grid.targetAspect r /\ planeHeight <= Grid.planeWidth r)%Q)
  /\ (orientation r = Portrait ->
        (Grid.targetAspect r <= 1 /\ Grid.planeWidth r <= planeHeight)%Q)
  /\ (0 < Grid.planeWidth r)%Q
  /\ (forall r', pageRenders r' = pageRenders r ->
                 orientation r' <> orientation r ->
                 (Grid.targetAspect r * Grid.targetAspect r' == 1)%Q).
Proof.
  intros Hw Hh; pose proof (aspect_pos r Hw Hh) as Ha.
  destruct (aspect_cases (Grid.aspect r) Ha) as (A & B & C & _).
  split; [|split; [|split]].
  - unfold Grid.planeWidth, Grid.targetAspect, isLandscape, planeHeight.
    intros ->; simpl; split; [exact A|nra].
  - unfold Grid.planeWidth, Grid.targetAspect, isLandscape, planeHeight.
    intros ->; simpl; split; [exact B|nra].
  - unfold Grid.planeWidth, Grid.targetAspect, isLandscape, planeHeight.
    destruct (orientation r); simpl; nra.
  - intros r' Hp Ho.
    assert (Ea : Grid.aspect r' = Grid.aspect r)
      by (unfold Grid.aspect, base; rewrite Hp; reflexivity).
    unfold Grid.targetAspect, isLandscape; rewrite Ea.
    destruct (orientation r), (orientation r'); try contradiction; simpl; nra.
Qed.

Lemma orientation_shapes_plane_witness :
  (0 < width (base onePage))%Q /\ (0 < height (base onePage))%Q
  /\ orientation onePage = Portrait
  /\ (Grid.planeWidth onePage <= planeHeight)%Q.
Proof.
  assert (H1 : (0 < width (base onePage))%Q) by reflexivity.
  assert (H2 : (0 < height (base onePage))%Q) by reflexivity.
  destruct (orientation_shapes_plane onePage H1 H2) as (_ & A & _).
  split; [exact H1|]; split; [exact H2|]; split; [reflexivity|].
  exact (proj2 (A eq_refl)).
Defined.

(** X13.  The texture is turned a quarter exactly when the plane takes the
    reciprocal aspect: for a first page of positive width and height, either
    the requested orientation agrees with the source, the textures are not
    turned and the plane has the aspect of the page, or it disagrees, the
    textures are turned by pi/2 and the plane has the reciprocal aspect. *)
Theorem rotation_follows_aspect (r : Refs) :
  (0 < width (base r))%Q -> (0 < height (base r))%Q ->
  (isLandscape r = Grid.isSourceLandscape r
   /\ Grid.orientationRotation r = 0%Q
   /\ (Grid.targetAspect r == Grid.aspect r)%Q)
  \/ (isLandscape r <> Grid.isSourceLandscape r
      /\ Grid.orientationRotation r = (PI / 2)%Q
      /\ (Grid.targetAspect r == 1 / Grid.aspect r)%Q).
Proof.
  intros Hw Hh; pose proof (aspect_pos r Hw Hh) as Ha.
  destruct (aspect_cases (Grid.aspect r) Ha) as (_ & _ & _ & A & B).
  unfold Grid.orientationRotation, Grid.targetAspect, Grid.isSourceLandscape.
  destruct (Qle_bool 1 (Grid.aspect r)) eqn:E.
  - apply Qle_bool_iff in E; destruct (A E) as [A1 A2].
    destruct (isLandscape r); [left|right]; simpl;
      (split; [congruence|split; [reflexivity|assumption]]).
  - assert (N : ~ (1 <= Grid.aspect r)%Q)
      by (intros C; apply Qle_bool_iff in C; congruence).
    destruct (B N) as [B1 B2].
    destruct (isLandscape r); [right|left]; simpl;
      (split; [congruence|split; [reflexivity|assumption]]).
Qed.

Lemma rotation_follows_aspect_witness :
  (0 < width (base onePage))%Q /\ (0 < height (base onePage))%Q
  /\ Grid.orientationRotation onePage = 0%Q
  /\ (Grid.targetAspect onePage == Grid.aspect onePage)%Q.
Proof.
  assert (H1 : (0 < width (base onePage))%Q) by reflexivity.
  assert (H2 : (0 < height (base onePage))%Q) by reflexivity.
  destruct (rotation_follows_aspect onePage H1 H2) as [(_ & A & B)|(C & _)].
  - split; [exact H1|]; split; [exact H2|]; split; [exact A|exact B].
  - exfalso; apply C; reflexivity.
Defined.

Lemma col_next (r : Refs) (i : Z) :
  0 <= i -> Grid.col r i + 1 < Grid.columns r ->
  Grid.col r (i + 1) = Grid.col r i + 1 /\ Grid.row r (i + 1) = Grid.row r i.
Proof.
  intros Hi Hc; pose proof (columns_range r) as R.
  destruct (col_mod r i Hi) as [Ei _].
  destruct (col_mod r (i + 1) ltac:(lia)) as [Ej _].
  rewrite Ei in Hc; rewrite Ei, Ej.
  unfold Grid.row; rewrite !floor_quotient.
  pose proof (Z.div_mod i (Grid.columns r) ltac:(lia)) as D.
  pose proof (Z.mod_pos_bound i (Grid.columns r) ltac:(lia)) as B.
  assert (E : i + 1 = Grid.columns r * (i / Grid.columns r) + (i mod Grid.columns r + 1)) by lia.
  split.
  - symmetry; apply (Z.mod_unique_pos _ _ (i / Grid.columns r)); lia.
  - symmetry; apply (Z.div_unique_pos _ _ _ (i mod Grid.columns r + 1)); lia.
Qed.

(** X14.  The grid is regular: two sheets next to each other in a row are
    [spacingX] apart in [x] and level in [z]; sheet [i + columns] sits in the
    same column as sheet [i], [spacingZ] further back; [spacingX] is the
    plane width plus a quarter of it and [spacingZ] is one and a half plane
    heights. *)
Theorem grid_spacing (r : Refs) (i : Z) :
  0 <= i ->
  (Grid.col r i + 1 < Grid.columns r ->
     (Grid.x r (i + 1) - Grid.x r i == Grid.spacingX r)%Q
     /\ (Grid.z r (i + 1) == Grid.z r i)%Q)
  /\ (Grid.x r (i + Grid.columns r) == Grid.x r i)%Q
  /\ (Grid.z r i - Grid.z r (i + Grid.columns r) == Grid.spacingZ)%Q
  /\ (Grid.spacingX r == Grid.planeWidth r + Grid.planeWidth r / 4)%Q
  /\ (Grid.spacingZ == planeHeight + planeHeight / 2)%Q.
Proof.
  intros Hi; pose proof (columns_range r) as R.
  split; [|split; [|split; [|split]]].
  - intros Hc; destruct (col_next r i Hi Hc) as [Ec Er].
    unfold Grid.x, Grid.z; rewrite Ec, Er, inject_Z_plus; split; ring.
  - unfold Grid.x.
    destruct (col_mod r i Hi) as [-> _].
    destruct (col_mod r (i + Grid.columns r) ltac:(lia)) as [-> _].
    replace (i + Grid.columns r) with (i + 1 * Grid.columns r) by lia.
    rewrite Z.mod_add by lia; reflexivity.
  - unfold Grid.z, Grid.row; rewrite !floor_quotient.
    replace (i + Grid.columns r) with (i + 1 * Grid.columns r) by lia.
    rewrite Z.div_add by lia.
    rewrite inject_Z_plus; ring.
  - unfold Grid.spacingX; field.
  - unfold Grid.spacingZ; field.
Qed.

Lemma grid_spacing_witness :
  0 <= 3 /\ Grid.col twelveSheets 3 + 1 < Grid.columns twelveSheets
  /\ (Grid.x twelveSheets 4 - Grid.x twelveSheets 3 == Grid.spacingX twelveSheets)%Q.
Proof.
  assert (H1 : 0 <= 3) by lia.
  assert (H2 : Grid.col twelveSheets 3 + 1 < Grid.columns twelveSheets) by reflexivity.
  destruct (grid_spacing twelveSheets 3 H1) as (A & _).
  split; [exact H1|]; split; [exact H2|exact (proj1 (A H2))].
Defined.

(** ** The cascade, sheet by sheet *)

Lemma cascade_placement (r : Refs) (i : Z) (w : World) :
  let g := eval (Cascade.buildSheet r i) w in
  mesh_position_z (frontMesh g) = (inject_Z i * Cascade.sheetDepth)%Q
  /\ mesh_position_z (backMesh g) = (inject_Z i * Cascade.sheetDepth - 0.001)%Q
  /\ mesh_rotation_y (frontMesh g) = 0%Q
  /\ mesh_rotation_y (backMesh g) = PI
  /\ geometry (frontMesh g) = geometry (backMesh g)
  /\ position g = (0, - inject_Z i * 0.015, 0)%Q
  /\ rotation_x g = degToRad (6 + inject_Z i * 0.2).
Proof. unfold Cascade.buildSheet; step_eval; repeat split. Qed.

Lemma degToRad_lt (d e : Q) : (d < e)%Q -> (degToRad d < degToRad e)%Q.
Proof.
  intros H; unfold degToRad, PI, Qdiv.
  apply Qmult_lt_compat_r; [reflexivity|].
  rewrite !Qmult_1_r; exact H.
Qed.

(** X15.  The faces of a cascade are laid out in strict depth order: the
    back face of a sheet gets an offset 0.001 below its front face (and is
    turned by pi about the vertical axis, while both share one geometry),
    and the back face of a later sheet gets an offset above the front face
    of every earlier sheet, so no two faces receive the same offset; a later
    sheet is also placed lower and pitched further than an earlier one. *)
Theorem cascade_depth_order (r : Refs) (i j : Z) (w w' : World) :
  i < j ->
  let a := eval (Cascade.buildSheet r i) w in
  let b := eval (Cascade.buildSheet r j) w' in
  (mesh_position_z (backMesh a) < mesh_position_z (frontMesh a))%Q
  /\ (mesh_position_z (frontMesh a) < mesh_position_z (backMesh b))%Q
  /\ (mesh_position_z (backMesh b) < mesh_position_z (frontMesh b))%Q
  /\ (mesh_position_z (frontMesh a) - mesh_position_z (backMesh a) == 0.001)%Q
  /\ geometry (frontMesh a) = geometry (backMesh a)
  /\ mesh_rotation_y (backMesh a) = PI
  /\ (snd (fst (position b)) < snd (fst (position a)))%Q
  /\ (rotation_x a < rotation_x b)%Q.
Proof.
  intros Hij a b.
  destruct (cascade_placement r i w) as (A1 & A2 & _ & A4 & A5 & A6 & A7).
  destruct (cascade_placement r j w') as (B1 & B2 & _ & _ & _ & B6 & B7).
  fold a in A1, A2, A4, A5, A6, A7; fold b in B1, B2, B6, B7.
  rewrite A1, A2, B1, B2, A6, B6, A7, B7.
  assert (Hq : (inject_Z i + 1 <= inject_Z j)%Q).
  { change 1%Q with (inject_Z 1); rewrite <- inject_Z_plus, <- Zle_Qle; lia. }
  unfold degToRad, PI, Cascade.sheetDepth; cbn [fst snd].
  split; [lra|]; split; [lra|]; split; [lra|]; split; [lra|].
  split; [exact A5|]; split; [exact A4|]; split; [lra|].
  apply degToRad_lt; lra.
Qed.

Lemma cascade_depth_order_witness :
  0 < 1
  /\ (mesh_position_z (frontMesh (eval (Cascade.buildSheet fiftySheets 0) mountedWorld))
      < mesh_position_z (backMesh (eval (Cascade.buildSheet fiftySheets 1) mountedWorld)))%Q.
Proof.
  assert (H : 0 < 1) by lia.
  destruct (cascade_depth_order fiftySheets 0 1 mountedWorld mountedWorld H) as (_ & A & _).
  split; [exact H|exact A].
Defined.

(** ** File intake, the other cases *)

Section Intake.

Variable pdfNumPages : File -> Outcome Z.
Variable pdfRenderPages : File -> Z -> Outcome (list PageRender).
Variable decodeImage : File -> Outcome PageRender.

Let load := loadFile pdfNumPages pdfRenderPages decodeImage.

(** X16.  No load touches the print mode: whatever the file and whatever the
    decoders answer, [loadFile] leaves [copies], [duplex], [flip] and
    [orientation] as they were, records the file as the current one and ends
    with the loading flag off; the same holds for the file handlers, which
    do nothing at all when the file list is empty. *)
Theorem load_keeps_print_mode (selected : File) (files : list File) (r : Refs) :
  (copies (load selected r) = copies r
   /\ duplex (load selected r) = duplex r
   /\ flip (load selected r) = flip r
   /\ orientation (load selected r) = orientation r
   /\ file (load selected r) = Some selected
   /\ isLoading (load selected r) = false)
  /\ (let r' := handleFiles pdfNumPages pdfRenderPages decodeImage files r in
      copies r' = copies r /\ duplex r' = duplex r /\ flip r' = flip r
      /\ orientation r' = orientation r)
  /\ handleFiles pdfNumPages pdfRenderPages decodeImage [] r = r.
Proof.
  assert (K : forall f,
             copies (load f r) = copies r
             /\ duplex (load f r) = duplex r
             /\ flip (load f r) = flip r
             /\ orientation (load f r) = orientation r
             /\ file (load f r) = Some f
             /\ isLoading (load f r) = false).
  { intros f; unfold load, loadFile, loadPdf, loadImage.
    destruct (String.eqb (type f) "application/pdf");
      [destruct (pdfNumPages f) as [n|[m|]];
         [destruct (pdfRenderPages f (Z.min n 60)) as [l|[m|]]| |]
      |destruct (String.prefix "image/" (type f));
         [destruct (decodeImage f) as [p|[m|]]|]];
      repeat split. }
  split; [apply K|]; split; [|reflexivity].
  destruct files as [|f files]; simpl; [repeat split|].
  destruct (K f) as (A & B & C & D & _); repeat split; assumption.
Qed.

(** X17.  A load starts from a clean slate: its result does not depend on
    the file, loading flag, error message or page images left by an earlier
    load. *)
Theorem load_forgets_previous (selected : File) (r : Refs)
        (f : option File) (l : bool) (e : option string) (ps : list PageRender) :
  load selected (set_pageRenders ps (set_loadError e (set_isLoading l (set_file f r))))
  = load selected r.
Proof.
  unfold load, loadFile, loadPdf, loadImage.
  destruct (String.eqb (type selected) "application/pdf");
    [destruct (pdfNumPages selected) as [n|[m|]];
       [destruct (pdfRenderPages selected (Z.min n 60)) as [rs|[m|]]| |]
    |destruct (String.prefix "image/" (type selected));
       [destruct (decodeImage selected) as [p|[m|]]|]];
    reflexivity.
Qed.

(** X18.  A PDF that decodes: the page setting becomes the number of pages
    of the document capped at 60, the detected page count is the true
    number, the page images are the rendered pages and no error is shown;
    if the document has at least one page the new page setting is valid and
    does not exceed the detected count. *)
Theorem load_pdf_ok (selected : File) (r : Refs) (numPages : Z)
        (renders : list PageRender) :
  type selected = "application/pdf"%string ->
  pdfNumPages selected = Resolved numPages ->
  pdfRenderPages selected (Z.min numPages 60) = Resolved renders ->
  pages (load selected r) = Z.min numPages 60
  /\ maxPageCount (load selected r) = Some numPages
  /\ pageRenders (load selected r) = renders
  /\ loadError (load selected r) = None
  /\ (1 <= numPages ->
        1 <= pages (load selected r) <= 60
        /\ pages (load selected r) <= numPages
        /\ sheetsPerCopy (load selected r) <= 60).
Proof.
  intros Ht Hn Hr; unfold load, loadFile, loadPdf.
  rewrite Ht; simpl; rewrite Hn, Hr; simpl.
  repeat split; try lia.
  unfold sheetsPerCopy, isDuplex; simpl.
  destruct (DuplexMode_eqb (duplex r) Duplex); [rewrite ceil_half|]; [|lia].
  apply Z.div_le_upper_bound; lia.
Qed.

(** X19.  A PDF that fails: if the document cannot be opened, the page
    setting and the detected page count stay as they were; if it opens but
    rendering a page fails, both have already been set from the document.
    In either case the page images are empty and the error shown is the
    message of the error, or "Failed to read file." when what was thrown is
    not an [Error]. *)
Theorem load_pdf_failed (selected : File) (r : Refs) (e : option string) :
  type selected = "application/pdf"%string ->
  let shownError := Some (match e with Some m => m | None => "Failed to read file." end)%string in
  (pdfNumPages selected = Thrown e ->
     pages (load selected r) = pages r
     /\ maxPageCount (load selected r) = maxPageCount r
     /\ pageRenders (load selected r) = []
     /\ loadError (load selected r) = shownError)
  /\ (forall numPages,
        pdfNumPages selected = Resolved numPages ->
        pdfRenderPages selected (Z.min numPages 60) = Thrown e ->
        pages (load selected r) = Z.min numPages 60
        /\ maxPageCount (load selected r) = Some numPages
        /\ pageRenders (load selected r) = []
        /\ loadError (load selected r) = shownError).
Proof.
  intros Ht shownError; unfold load, loadFile, loadPdf; rewrite Ht; simpl.
  split.
  - intros ->; destruct e; repeat split.
  - intros numPages -> ->; destruct e; repeat split.
Qed.

(** X20.  An image: a file of type [image/*] that decodes becomes a
    one-page document (page setting 1, detected page count 1, one page
    image, no error); one that does not decode leaves the page setting and
    the detected count alone, empties the page images and shows the
    error. *)
Theorem load_image (selected : File) (r : Refs) :
  type selected <> "application/pdf"%string ->
  String.prefix "image/" (type selected) = true ->
  (forall page,
     decodeImage selected = Resolved page ->
     pages (load selected r) = 1
     /\ maxPageCount (load selected r) = Some 1
     /\ pageRenders (load selected r) = [page]
     /\ loadError (load selected r) = None
     /\ sheetsPerCopy (load selected r) = 1)
  /\ (forall e,
        decodeImage selected = Thrown e ->
        pages (load selected r) = pages r
        /\ maxPageCount (load selected r) = maxPageCount r
        /\ pageRenders (load selected r) = []
        /\ loadError (load selected r)
           = Some (match e with Some m => m | None => "Failed to read file." end)%string).
Proof.
  intros Ht Hi; unfold load, loadFile, loadImage.
  destruct (String.eqb_spec (type selected) "application/pdf") as [E|_];
    [contradiction|].
  rewrite Hi; split.
  - intros page ->; simpl; repeat split.
    unfold sheetsPerCopy, isDuplex; simpl.
    destruct (DuplexMode_eqb (duplex r) Duplex); reflexivity.
  - intros e ->; destruct e; repeat split.
Qed.

End Intake.

Lemma load_pdf_ok_witness :
  type pdfFile = "application/pdf"%string
  /\ longPdf pdfFile = Resolved 75
  /\ renderOne pdfFile (Z.min 75 60) = Resolved [mkPageRender "data:image/png;base64,BBBB" 612 792]
  /\ pages (loadFile longPdf renderOne noImage pdfFile loadedDoc) = 60
  /\ maxPageCount (loadFile longPdf renderOne noImage pdfFile loadedDoc) = Some 75.
Proof.
  destruct (load_pdf_ok longPdf renderOne noImage pdfFile loadedDoc 75 _
              eq_refl eq_refl eq_refl) as (A & B & _).
  split; [reflexivity|]; split; [reflexivity|]; split; [reflexivity|].
  split; [exact A|exact B].
Defined.

Lemma load_pdf_failed_witness :
  type pdfFile = "application/pdf"%string
  /\ longPdf pdfFile = Resolved 75
  /\ renderFails pdfFile (Z.min 75 60) = Thrown (Some "Invalid page request."%string)
  /\ pages (loadFile longPdf renderFails noImage pdfFile loadedDoc) = 60
  /\ pageRenders (loadFile longPdf renderFails noImage pdfFile loadedDoc) = []
  /\ loadError (loadFile longPdf renderFails noImage pdfFile loadedDoc)
     = Some "Invalid page request."%string.
Proof.
  destruct (load_pdf_failed longPdf renderFails noImage pdfFile loadedDoc
              (Some "Invalid page request."%string) eq_refl) as [_ A].
  destruct (A 75 eq_refl eq_refl) as (A1 & _ & A3 & A4).
  split; [reflexivity|]; split; [reflexivity|]; split; [reflexivity|].
  split; [exact A1|]; split; [exact A3|exact A4].
Defined.

Lemma load_image_witness :
  type imageFile <> "application/pdf"%string
  /\ String.prefix "image/" (type imageFile) = true
  /\ decodeOk imageFile = Resolved (mkPageRender "data:image/png;base64,CCCC" 640 480)
  /\ pages (loadFile noPdf noPages decodeOk imageFile loadedDoc) = 1
  /\ maxPageCount (loadFile noPdf noPages decodeOk imageFile loadedDoc) = Some 1.
Proof.
  assert (H1 : type imageFile <> "application/pdf"%string) by discriminate.
  destruct (load_image noPdf noPages decodeOk imageFile loadedDoc H1 eq_refl) as [A _].
  destruct (A _ eq_refl) as (A1 & A2 & _).
  split; [exact H1|]; split; [reflexivity|]; split; [reflexivity|].
  split; [exact A1|exact A2].
Defined.

(** ** Clearing the file *)

Lemma no_pages_no_urls (r : Refs) (i : Z) :
  pageRenders r = [] -> frontUrl r i = None /\ backUrl r i = None.
Proof.
  intros H.
  assert (K : forall idx, urlAt r idx = None).
  { intros [[z|]|]; unfold urlAt, JS.index; rewrite ?H; try reflexivity.
    destruct (z <? 0); [reflexivity|]; destruct (Z.to_nat z); reflexivity. }
  split; apply K.
Qed.

Lemma buildSheet_geometry (ctx2d : bool) (r : Refs) (i : Z) (w : World) :
  geo_width (geometry (frontMesh (eval (Cascade.buildSheet r i) w))) = Cascade.planeWidth r
  /\ geo_width (geometry (frontMesh (eval (Grid.buildSheet ctx2d r i) w))) = Grid.planeWidth r.
Proof.
  unfold Cascade.buildSheet, Grid.buildSheet; step_eval; split; reflexivity.
Qed.

(** X21.  Removing the file blanks the preview but keeps the job: after
    [clearFile] the file, the page images and the detected page count are
    gone while pages, copies, duplex mode, flip and orientation, and with
    them the sheet total, are unchanged; every sheet that [buildStack] then
    builds, in either variant, has two blank faces, and the cascade sheets
    have the default width of 2.6 / 1.414. *)
Theorem clearFile_blanks_preview (r : Refs) (w : World) (ctx2d : bool) :
  (file (clearFile r) = None /\ pageRenders (clearFile r) = []
   /\ maxPageCount (clearFile r) = None /\ hasRenderedPages (clearFile r) = false)
  /\ (pages (clearFile r) = pages r /\ copies (clearFile r) = copies r
      /\ duplex (clearFile r) = duplex r /\ flip (clearFile r) = flip r
      /\ orientation (clearFile r) = orientation r
      /\ totalSheets (clearFile r) = totalSheets r)
  /\ (forall g, In g (children (exec (Cascade.buildStack (clearFile r)) w)) ->
        frontFace g = None /\ backFace g = None
        /\ geo_width (geometry (frontMesh g)) = (planeHeight * (1 / 1.414))%Q)
  /\ (forall g, In g (children (exec (Grid.buildStack ctx2d (clearFile r)) w)) ->
        frontFace g = None /\ backFace g = None).
Proof.
  split; [repeat split|]; split; [repeat split|]; split.
  - intros g Hg; rewrite cascade_buildStack_rebuild in Hg.
    destruct (built_sheet_inv _ _ w g (allocating_cascade_buildSheet (clearFile r)) Hg)
      as (i & w' & _ & ->).
    destruct (cascade_faces (clearFile r) i w') as [-> ->].
    destruct (no_pages_no_urls (clearFile r) i eq_refl) as [-> ->].
    rewrite (proj1 (buildSheet_geometry true (clearFile r) i w')).
    repeat split.
  - intros g Hg; rewrite grid_buildStack_rebuild in Hg.
    destruct (built_sheet_inv _ _ w g (allocating_grid_buildSheet ctx2d (clearFile r)) Hg)
      as (i & w' & _ & ->).
    destruct (grid_faces ctx2d (clearFile r) i w') as [-> ->].
    destruct (no_pages_no_urls (clearFile r) i eq_refl) as [-> ->].
    split; reflexivity.
Qed.

Lemma clearFile_blanks_preview_witness :
  In (eval (Cascade.buildSheet (clearFile loadedDoc) 0) mountedWorld)
     (children (exec (Cascade.buildStack (clearFile loadedDoc)) mountedWorld))
  /\ frontFace (eval (Cascade.buildSheet (clearFile loadedDoc) 0) mountedWorld) = None.
Proof.
  assert (H : In (eval (Cascade.buildSheet (clearFile loadedDoc) 0) mountedWorld)
                 (children (exec (Cascade.buildStack (clearFile loadedDoc)) mountedWorld)))
    by (vm_compute; left; reflexivity).
  destruct (clearFile_blanks_preview loadedDoc mountedWorld true) as (_ & _ & A & _).
  split; [exact H|exact (proj1 (A _ H))].
Defined.

(** ** The flat stack *)




(** ** Instances of the session properties *)

Lemma no_use_after_dispose_witness :
  In (eval (Cascade.buildSheet onePage 0)
           (exec disposeStack (cascadeSession true [twelveSheets])))
     (children (cascadeSession true [twelveSheets; onePage]))
  /\ In (KGeometry, 36%nat)
        (sheetResources (eval (Cascade.buildSheet onePage 0)
                              (exec disposeStack (cascadeSession true [twelveSheets]))))
  /\ releases (cascadeSession true [twelveSheets; onePage]) 36 = 0%nat
  /\ releases (cascadeSession true [twelveSheets; onePage]) 35 = 1%nat.
Proof.
  assert (H1 : In (eval (Cascade.buildSheet onePage 0)
                        (exec disposeStack (cascadeSession true [twelveSheets])))
                  (children (cascadeSession true [twelveSheets; onePage])))
    by (vm_compute; left; reflexivity).
  assert (H2 : In (KGeometry, 36%nat)
                  (sheetResources (eval (Cascade.buildSheet onePage 0)
                                        (exec disposeStack (cascadeSession true [twelveSheets])))))
    by (vm_compute; left; reflexivity).
  destruct (no_use_after_dispose true [twelveSheets; onePage] []) as [A _].
  destruct (A _ _ H1 H2) as [A1 _].
  split; [exact H1|split; [exact H2|split; [exact A1|reflexivity]]].
Defined.

Lemma rebuild_idempotent_witness :
  stackGroup mountedWorld = Some []
  /\ List.map eraseIds (children (exec (Cascade.buildStack onePage) mountedWorld))
     = List.map eraseIds
         (children (exec (Cascade.buildStack onePage)
                         (exec (Cascade.buildStack twelveSheets) mountedWorld))).
Proof.
  destruct (rebuild_idempotent true onePage mountedWorld) as (_ & _ & A).
  split; [reflexivity|].
  refine (proj1 (A (exec (Cascade.buildStack twelveSheets) mountedWorld) [] _ eq_refl _)).
  vm_compute; reflexivity.
Defined.

(** ** Faces and their colour *)

Lemma createPageMaterial_colour (a b : Q) (c : bool) (u : option string)
      (rotation : Q) (w : World) :
  let m := eval (createPageMaterial a b c u rotation) w in
  (map m <> None /\ color m = 16777215) \/ (map m = None /\ color m = 15857145).
Proof.
  unfold createPageMaterial; rewrite eval_bind.
  destruct u as [s|]; simpl; [|right; split; reflexivity].
  destruct (negb (String.eqb s "")); [left|right]; split;
    try reflexivity; discriminate.
Qed.

Lemma sheet_materials (ctx2d : bool) (r : Refs) (i : Z) (w : World) :
  (exists wf wb,
      material (frontMesh (eval (Cascade.buildSheet r i) w))
      = eval (createPageMaterial 0.85 0.05 false (frontUrl r i) 0) wf
      /\ material (backMesh (eval (Cascade.buildSheet r i) w))
         = eval (createPageMaterial 0.85 0.05 false (backUrl r i) (Cascade.backRotation r)) wb)
  /\ (exists wf wb,
         material (frontMesh (eval (Grid.buildSheet ctx2d r i) w))
         = eval (createPageMaterial 0.6 0.02 true (frontUrl r i) (Grid.orientationRotation r)) wf
         /\ material (backMesh (eval (Grid.buildSheet ctx2d r i) w))
            = eval (createPageMaterial 0.6 0.02 true (backUrl r i) (Grid.backRotation r)) wb).
Proof.
  unfold Cascade.buildSheet, Grid.buildSheet; step_eval.
  split; eexists; eexists; split; reflexivity.
Qed.

(** X23.  A face is white exactly when it carries a page image and light
    grey when it is blank: in every sheet built by either variant each of
    the two materials either has a texture and the colour [0xffffff], or has
    none and the colour [0xf1f5f9]. *)
Theorem face_colour (ctx2d : bool) (r : Refs) (w : World) (g : SheetGroup) :
  In g (children (exec (Cascade.buildStack r) w))
  \/ In g (children (exec (Grid.buildStack ctx2d r) w)) ->
  let lit (m : Material) :=
    (map m <> None /\ color m = 16777215) \/ (map m = None /\ color m = 15857145) in
  lit (material (frontMesh g)) /\ lit (material (backMesh g)).
Proof.
  intros [Hg|Hg] lit.
  - rewrite cascade_buildStack_rebuild in Hg.
    destruct (built_sheet_inv _ _ w g (allocating_cascade_buildSheet r) Hg)
      as (i & w' & _ & ->).
    destruct (sheet_materials ctx2d r i w') as [(wf & wb & -> & ->) _].
    split; apply createPageMaterial_colour.
  - rewrite grid_buildStack_rebuild in Hg.
    destruct (built_sheet_inv _ _ w g (allocating_grid_buildSheet ctx2d r) Hg)
      as (i & w' & _ & ->).
    destruct (sheet_materials ctx2d r i w') as [_ (wf & wb & -> & ->)].
    split; apply createPageMaterial_colour.
Qed.

Lemma face_colour_witness :
  (In (eval (Cascade.buildSheet onePage 0) mountedWorld)
      (children (exec (Cascade.buildStack onePage) mountedWorld))
   \/ In (eval (Cascade.buildSheet onePage 0) mountedWorld)
         (children (exec (Grid.buildStack true onePage) mountedWorld)))
  /\ color (material (frontMesh (eval (Cascade.buildSheet onePage 0) mountedWorld)))
     = 16777215
  /\ color (material (backMesh (eval (Cascade.buildSheet onePage 0) mountedWorld)))
     = 15857145.
Proof.
  assert (H : In (eval (Cascade.buildSheet onePage 0) mountedWorld)
                 (children (exec (Cascade.buildStack onePage) mountedWorld))
              \/ In (eval (Cascade.buildSheet onePage 0) mountedWorld)
                    (children (exec (Grid.buildStack true onePage) mountedWorld)))
    by (left; vm_compute; left; reflexivity).
  destruct (face_colour true onePage mountedWorld _ H) as [A B].
  split; [exact H|]; split.
  - destruct A as [[_ A]|[A _]]; [exact A|vm_compute in A; discriminate].
  - destruct B as [[B _]|[_ B]]; [exfalso; apply B; reflexivity|exact B].
Defined.

(** ** Settings outside the data model *)

(** X24.  For every integer [pages] and [copies], in a mounted scene, the
    number of sheets [buildStack] places is [renderedSheets] when that is
    not negative and 0 otherwise; in particular nothing is built, and
    nothing constructed, when the sheet total is zero or negative. *)
Theorem built_for_any_settings (ctx2d : bool) (r : Refs) (w : World)
        (ch : list SheetGroup) :
  stackGroup w = Some ch ->
  Z.of_nat (List.length (children (exec (Cascade.buildStack r) w)))
  = Z.max (renderedSheets 24 r) 0
  /\ Z.of_nat (List.length (children (exec (Grid.buildStack ctx2d r) w)))
     = Z.max (renderedSheets 100 r) 0
  /\ (totalSheets r <= 0 ->
        children (exec (Cascade.buildStack r) w) = []
        /\ children (exec (Grid.buildStack ctx2d r) w) = []
        /\ disposable (exec (Cascade.buildStack r) w) = []
        /\ disposable (exec (Grid.buildStack ctx2d r) w) = []
        /\ next_uid (exec (Cascade.buildStack r) w) = next_uid w
        /\ next_uid (exec (Grid.buildStack ctx2d r) w) = next_uid w).
Proof.
  intros Hw.
  rewrite !cascade_buildStack_rebuild, !grid_buildStack_rebuild.
  destruct (rebuild_tracks (Cascade.renderCount r) _ w ch (tracking_cascade r) Hw)
    as (gs & E & L).
  destruct (rebuild_tracks (Grid.renderCount r) _ w ch (tracking_grid ctx2d r) Hw)
    as (gs' & E' & L').
  rewrite E, E'; unfold children; cbn [stackGroup disposable next_uid].
  unfold Cascade.renderCount, Cascade.maxRenderedSheets in L.
  unfold Grid.renderCount, Grid.maxRenderedSheets in L'.
  unfold renderedSheets.
  split; [lia|]; split; [lia|].
  intros Ht.
  assert (gs = []) by (apply length_zero_iff_nil; lia).
  assert (gs' = []) by (apply length_zero_iff_nil; lia).
  subst; simpl; repeat split; lia.
Qed.

Lemma built_for_any_settings_witness :
  stackGroup mountedWorld = Some []
  /\ totalSheets (set_copies (-2) fiftySheets) <= 0
  /\ children (exec (Cascade.buildStack (set_copies (-2) fiftySheets)) mountedWorld) = []
  /\ renderedSheets 24 (set_copies (-2) fiftySheets) = -10.
Proof.
  destruct (built_for_any_settings true (set_copies (-2) fiftySheets) mountedWorld []
              eq_refl) as (_ & _ & A).
  assert (H : totalSheets (set_copies (-2) fiftySheets) <= 0) by (vm_compute; congruence).
  split; [reflexivity|]; split; [exact H|]; split; [exact (proj1 (A H))|reflexivity].
Defined.
